(** * lance.util: metric names, vector-array normalisation, index validation

    A shallow embedding of [python/python/lance/util.py].  Python values are
    modelled by the data they carry, exceptions by a sum type, and the calls
    that leave the module (the native KMeans model, the dataset) by recorded
    events, so that statements about "what was called" can be read off a
    trace. *)

From Stdlib Require Import ZArith String Ascii Bool Arith Lia List.
From Stdlib Require Import SpecFloat DecimalString.
From Equations Require Import Equations.
Import ListNotations.

Set Asymmetric Patterns.

(** ** Python runtime: exceptions, results, strings *)

(** The exceptions that the modelled code can raise or let through.
    [ArrowInvalid] is pyarrow's (a subclass of ValueError raised by the
    library, never by this module); [Foreign] stands for whatever a
    collaborator raises. *)
Inductive exn : Type :=
| ValueError (msg : string)
| ArrowInvalid (msg : string)
| ZeroDivisionError
| IndexError
| KeyError (key : string)
| Foreign (what : string).

Definition result (A : Type) : Type := (exn + A)%type.

Definition ok {A : Type} (a : A) : result A := inr a.
Definition raise {A : Type} (e : exn) : result A := inl e.

(** [str(n)] for a Python int. *)
Definition str_int (z : Z) : string := NilZero.string_of_int (Z.to_int z).
Definition str_nat (n : nat) : string := NilZero.string_of_uint (Nat.to_uint n).

(** [str.lower] on the code units of a string: the letters A-Z move to a-z,
    everything else stays. *)
Definition lower_ascii (c : ascii) : ascii :=
  let n := nat_of_ascii c in
  if (65 <=? n)%nat && (n <=? 90)%nat then ascii_of_nat (n + 32) else c.

Fixpoint lower (s : string) : string :=
  match s with
  | EmptyString => EmptyString
  | String c rest => String (lower_ascii c) (lower rest)
  end.

(** [sub in s] for strings, as a proposition. *)
Definition contains (s sub : string) : Prop :=
  exists pre post : string, s = (pre ++ sub ++ post)%string.

(** ** The error taxonomy

    The module raises ValueError everywhere; the kinds of failure are told
    apart by the raise site, that is by the fixed head of the message. *)
Inductive ErrorKind : Type :=
| InvalidArgument
| TypeMismatch
| ShapeError
| UnsupportedType
| AccuracyError.

Definition msg_invalid_metric : string := "Invalid metric_type: ".
Definition msg_array_type : string := "Array must be float32 type, got: ".
Definition msg_numpy_type : string := "Numpy array must be float32 type, got: ".
Definition msg_tensor_rank : string :=
  "Fixed shape tensor array must be a 1-D array, got ".
Definition msg_numpy_rank : string := "Numpy array must be a 2-D array, got ".
Definition msg_unsupported : string :=
  "Data must be a FixedSizeListArray, Tensor or numpy array".
Definition msg_sanity : string := "Vector index failed sanity check, only ".

Definition error_kind (e : exn) : option ErrorKind :=
  match e with
  | ValueError msg =>
      if prefix msg_invalid_metric msg then Some InvalidArgument
      else if prefix msg_array_type msg || prefix msg_numpy_type msg
      then Some TypeMismatch
      else if prefix msg_tensor_rank msg || prefix msg_numpy_rank msg
      then Some ShapeError
      else if prefix msg_unsupported msg then Some UnsupportedType
      else if prefix msg_sanity msg then Some AccuracyError
      else None
  | _ => None
  end.

Definition fails_with {A : Type} (r : result A) (k : ErrorKind) : Prop :=
  exists e : exn, r = inl e /\ error_kind e = Some k.

(** ** _normalize_metric_type *)

Definition metric_names : list string := ["l2"; "dot"; "cosine"]%string.

Definition str_in (s : string) (l : list string) : bool :=
  existsb (String.eqb s) l.

Definition _normalize_metric_type (metric_type : string) : result string :=
  let normalized := lower metric_type in
  let normalized :=
    if String.eqb normalized "euclidean" then "l2"%string else normalized in
  if negb (str_in normalized metric_names)
  then raise (ValueError (msg_invalid_metric ++ metric_type))
  else ok normalized.

(** ** Arrow and numpy values *)

Inductive DataType : Type :=
| float16 | float32 | float64 | int32 | int64 | uint8.

Definition DataType_eqb (a b : DataType) : bool :=
  match a, b with
  | float16, float16 | float32, float32 | float64, float64
  | int32, int32 | int64, int64 | uint8, uint8 => true
  | _, _ => false
  end.

(** How pyarrow and numpy print a type inside an f-string. *)
Definition pa_type_str (t : DataType) : string :=
  match t with
  | float16 => "halffloat" | float32 => "float" | float64 => "double"
  | int32 => "int32" | int64 => "int64" | uint8 => "uint8"
  end.

Definition np_dtype_str (t : DataType) : string :=
  match t with
  | float16 => "float16" | float32 => "float32" | float64 => "float64"
  | int32 => "int32" | int64 => "int64" | uint8 => "uint8"
  end.

(** One array element, as its bit pattern. *)
Definition scalar : Type := Z.

(** A primitive Arrow array: a type and a buffer. *)
Record PrimitiveArray : Type := {
  arr_type : DataType;
  arr_values : list scalar
}.

(** [pa.FixedSizeListArray]: [fsl_length] lists of [list_size] elements each,
    stored one after the other in [fsl_values]. *)
Record FixedSizeListArray : Type := {
  value_type : DataType;
  list_size : nat;
  fsl_length : nat;
  fsl_values : list scalar
}.

(** [pa.FixedShapeTensorArray]: an extension array over a fixed-size-list
    storage; [tensor_shape] is [data.type.shape]. *)
Record FixedShapeTensorArray : Type := {
  tensor_shape : list nat;
  storage : FixedSizeListArray
}.

(** The class of an array: [np.ndarray] itself, or its subclass [np.matrix],
    whose every result keeps two dimensions.  Both pass
    [isinstance(data, np.ndarray)]. *)
Inductive NdClass : Type :=
| nd_plain
| nd_matrix.

(** [np.ndarray]: a shape, the element at each index, and the class. *)
Record ndarray : Type := {
  dtype : DataType;
  shape : list nat;
  item : list nat -> scalar;
  nd_class : NdClass
}.

(** What [_to_fixed_size_list] may be handed. *)
Inductive PyObject : Type :=
| PaFixedSizeListArray (a : FixedSizeListArray)
| PaFixedShapeTensorArray (t : FixedShapeTensorArray)
| NpNdarray (n : ndarray)
| PyOther (type_name : string).

(** The indices of an array of the given shape in C order (last index
    fastest), which is the order [reshape((-1,))] reads them in. *)
Fixpoint c_order (shp : list nat) : list (list nat) :=
  match shp with
  | [] => [[]]
  | d :: rest => flat_map (fun i => map (cons i) (c_order rest)) (seq 0 d)
  end.

(** The elements of [data.reshape((-1,))]: those of [data] in C order. *)
Definition reshape_flat (a : ndarray) : list scalar :=
  map (item a) (c_order (shape a)).

(** The number of dimensions of [data.reshape((-1,))]: one, except that a
    matrix stays two-dimensional, of shape (1, size). *)
Definition reshaped_ndim (a : ndarray) : nat :=
  match nd_class a with
  | nd_plain => 1
  | nd_matrix => 2
  end.

Definition pa_array (values : list scalar) (t : DataType) : PrimitiveArray :=
  {| arr_type := t; arr_values := values |}.

(** [pa.array(data.reshape((-1,)), type=t)] on an array that already has
    element type [t]: pyarrow converts one-dimensional arrays only. *)
Definition pa_array_reshaped (a : ndarray) (t : DataType)
  : result PrimitiveArray :=
  if (reshaped_ndim a =? 1)%nat
  then ok (pa_array (reshape_flat a) t)
  else raise (ArrowInvalid "only handle 1-dimensional arrays").

(** [pa.FixedSizeListArray.from_arrays(values, list_size)], pyarrow's
    constructor: it refuses a list size that is not strictly positive and a
    buffer whose length is not a multiple of it.  pyarrow holds the list
    size in a C int32: what it does with a size above [int32_max] is not
    described here. *)
Definition from_arrays (values : PrimitiveArray) (size : nat)
  : result FixedSizeListArray :=
  if (size <=? 0)%nat
  then raise (ArrowInvalid "list_size needs to be a strict positive integer")
  else if negb (length (arr_values values) mod size =? 0)%nat
  then raise (ArrowInvalid
         "The length of the values Array needs to be a multiple of the list_size")
  else ok {| value_type := arr_type values;
             list_size := size;
             fsl_length := length (arr_values values) / size;
             fsl_values := arr_values values |}.

(** The largest list size a fixed-size-list type can carry. *)
Definition int32_max : Z := 2147483647.

(** [x[i]] on a Python tuple known to be long enough. *)
Definition getitem (l : list nat) (i : nat) : nat := nth i l 0%nat.

(** ** class KMeans *)

Module KMeans.

(** A call that reaches the native model [lance.lance._KMeans]. *)
Inductive NativeCall : Type :=
| Call_KMeans (k : Z) (metric_type : string) (max_iters : Z)
              (centroids_arr : option FixedSizeListArray).

Section Class.

(** [lance.dependencies._check_for_numpy] and the native [_KMeans] live
    outside this file; they are taken as given. *)
Variable _check_for_numpy : PyObject -> bool.
Variable native : Type.
Variable _KMeans :
  Z -> string -> Z -> option FixedSizeListArray -> result native.

Record t : Type := {
  k : Z;
  _metric_type : string;
  _kmeans : native
}.

(** [KMeans.__init__]: the calls made into native code, and the object or
    the exception. *)
Definition __init__ (k : Z) (metric_type : string) (max_iters : Z)
           (centroids : option FixedSizeListArray)
  : list NativeCall * result t :=
  match _normalize_metric_type metric_type with
  | inl e => ([], raise e)
  | inr metric_type =>
      ([Call_KMeans k metric_type max_iters centroids],
       match _KMeans k metric_type max_iters centroids with
       | inl e => raise e
       | inr model =>
           ok {| k := k; _metric_type := metric_type; _kmeans := model |}
       end)
  end.

(** The only recursive call of [_to_fixed_size_list] goes from a tensor
    array to its storage. *)
Definition unwrap_depth (data : PyObject) : nat :=
  match data with
  | PaFixedShapeTensorArray _ => 1
  | _ => 0
  end.

Equations _to_fixed_size_list (data : PyObject) : result FixedSizeListArray
  by wf (unwrap_depth data) lt :=
_to_fixed_size_list (PaFixedSizeListArray data) :=
  if negb (DataType_eqb (value_type data) float32)
  then raise (ValueError (msg_array_type ++ pa_type_str (value_type data)))
  else ok data;
_to_fixed_size_list (PaFixedShapeTensorArray data) :=
  if negb (length (tensor_shape data) =? 1)%nat
  then raise (ValueError (msg_tensor_rank
                          ++ str_nat (length (tensor_shape data)) ++ "-D"))
  else _to_fixed_size_list (PaFixedSizeListArray (storage data));
_to_fixed_size_list (NpNdarray data) :=
  if _check_for_numpy (NpNdarray data)
  then
    if negb (length (shape data) =? 2)%nat
    then raise (ValueError (msg_numpy_rank
                            ++ str_nat (length (shape data)) ++ "-D"))
    else if negb (DataType_eqb (dtype data) float32)
    then raise (ValueError (msg_numpy_type ++ np_dtype_str (dtype data)))
    else
      match pa_array_reshaped data float32 with
      | inl e => raise e
      | inr inner_arr => from_arrays inner_arr (getitem (shape data) 1)
      end
  else raise (ValueError msg_unsupported);
_to_fixed_size_list (PyOther _) := raise (ValueError msg_unsupported).

End Class.

Arguments __init__ {native}.

End KMeans.

(** ** validate_vector_index *)

(** Python floats are IEEE binary64 numbers. *)
Definition pyfloat : Type := spec_float.
Definition prec : Z := 53.
Definition emax : Z := 1024.

Definition float_lt (x y : pyfloat) : bool := SFltb x y.
Definition float_abs (x : pyfloat) : pyfloat := SFabs x.

(** A Python int as a float operand: the integer itself, not yet rounded. *)
Definition int_operand (z : Z) : spec_float :=
  match z with
  | Z0 => S754_zero false
  | Zpos p => S754_finite false p 0
  | Zneg p => S754_finite true p 0
  end.

(** [a / b] on Python ints: the quotient rounded once to binary64, and
    ZeroDivisionError for a zero divisor.  (The quotient of two row counts
    is far from the overflow that Python reports for huge quotients.) *)
Definition int_truediv (a b : Z) : result pyfloat :=
  if (b =? 0)%Z then raise ZeroDivisionError
  else ok (SFdiv prec emax (int_operand a) (int_operand b)).

(** The literal [1e-6]: the binary64 number nearest to 1/1000000. *)
Definition epsilon : pyfloat :=
  SFdiv prec emax (int_operand 1) (int_operand 1000000).

(** One row of the vector column, as numpy hands it over. *)
Definition vec : Type := list pyfloat.

Definition isnan (x : pyfloat) : bool :=
  match x with
  | S754_nan => true
  | _ => false
  end.

(** [np.isnan(vec).any()] *)
Definition np_isnan_any (v : vec) : bool := existsb isnan v.

(** A table, seen through [data[column].to_numpy(zero_copy_only=False)]. *)
Definition Table : Type := string -> option (list vec).

Definition column_to_numpy (data : Table) (column : string)
  : result (list vec) :=
  match data column with
  | Some vecs => ok vecs
  | None => raise (KeyError column)
  end.

(** The [nearest=] dictionary of a query. *)
Record Nearest : Type := {
  nearest_column : string;
  nearest_q : vec;
  nearest_k : Z;
  nearest_nprobes : Z;
  nearest_refine_factor : Z
}.

(** What the validator asks of the dataset, with the answer it got.  The
    answer to a nearest-neighbour query is the [_distance] column of the
    returned table as a Python list. *)
Inductive Event : Type :=
| Ev_to_table
| Ev_sample (n : Z)
| Ev_nearest (nearest : Nearest) (answer : result (list pyfloat)).

(** [l[0]] on a Python list. *)
Definition getitem0 {A : Type} (l : list A) : result A :=
  match l with
  | x :: _ => ok x
  | [] => raise IndexError
  end.

Section Validator.

(** The dataset is a collaborator with a state of its own. *)
Variable S : Type.

Record LanceDataset : Type := {
  to_table : S -> result Table * S;
  sample : Z -> S -> result Table * S;
  to_table_nearest : Nearest -> S -> result (list pyfloat) * S
}.

(** Computations that call the dataset: from its state to a result or an
    exception, the new state and the events in the order they happened. *)
Definition M (A : Type) : Type := S -> result A * S * list Event.

Definition ret {A : Type} (a : A) : M A := fun s => (ok a, s, []).

Definition bind {A B : Type} (m : M A) (f : A -> M B) : M B :=
  fun s =>
    match m s with
    | (inl e, s1, t1) => (inl e, s1, t1)
    | (inr a, s1, t1) =>
        match f a s1 with
        | (r, s2, t2) => (r, s2, t1 ++ t2)
        end
    end.

Definition lift {A : Type} (r : result A) : M A := fun s => (r, s, []).

Definition call {A : Type} (op : S -> result A * S)
           (ev : result A -> Event) : M A :=
  fun s => match op s with (r, s1) => (r, s1, [ev r]) end.

Notation "x <- m ;; k" := (bind m (fun x => k))
  (at level 61, m at next level, right associativity).

Variable dataset : LanceDataset.

(** Line 197. *)
Definition materialize (sample_size : option Z) : M Table :=
  match sample_size with
  | None => call (to_table dataset) (fun _ => Ev_to_table)
  | Some n => call (sample dataset n) (fun _ => Ev_sample n)
  end.

Definition query (column : string) (v : vec) (refine_factor : Z) : Nearest :=
  {| nearest_column := column;
     nearest_q := v;
     nearest_k := 1;
     nearest_nprobes := 1;
     nearest_refine_factor := refine_factor |}.

(** The [for vec in vecs] loop, lines 202-215, with the two counters. *)
Fixpoint loop (column : string) (refine_factor : Z) (vecs : list vec)
         (passes total : Z) : M (Z * Z) :=
  match vecs with
  | [] => ret (passes, total)
  | v :: rest =>
      if np_isnan_any v
      then loop column refine_factor rest passes (total - 1)%Z
      else
        let nearest := query column v refine_factor in
        distances <- call (to_table_nearest dataset nearest)
                          (Ev_nearest nearest) ;;
        distance <- lift (getitem0 distances) ;;
        loop column refine_factor rest
             (passes + (if float_lt (float_abs distance) epsilon
                        then 1 else 0))%Z
             total
  end.

(** Lines 217-220. *)
Definition threshold_check (passes total : Z) (pass_threshold : pyfloat)
  : result unit :=
  match int_truediv passes total with
  | inl e => raise e
  | inr rate =>
      if float_lt rate pass_threshold
      then raise (ValueError (msg_sanity ++ str_int passes ++ "/"
                              ++ str_int total ++ " passed"))
      else ok tt
  end.

(** Lines 199-220: what happens once the rows are at hand. *)
Definition validate_rows (column : string) (refine_factor : Z)
           (pass_threshold : pyfloat) (vecs : list vec) : M unit :=
  counters <- loop column refine_factor vecs 0 (Z.of_nat (length vecs)) ;;
  lift (threshold_check (fst counters) (snd counters) pass_threshold).

Definition validate_vector_index (column : string) (refine_factor : Z)
           (sample_size : option Z) (pass_threshold : pyfloat) : M unit :=
  data <- materialize sample_size ;;
  vecs <- lift (column_to_numpy data column) ;;
  validate_rows column refine_factor pass_threshold vecs.

End Validator.

Arguments to_table {S}.
Arguments sample {S}.
Arguments to_table_nearest {S}.
Arguments ret {S A}.
Arguments lift {S A}.
Arguments bind {S A B}.
Arguments call {S A}.
Arguments materialize {S}.
Arguments loop {S}.
Arguments validate_rows {S}.
Arguments validate_vector_index {S}.

(** ** Vocabulary of the statements *)

(** The outcome of [_normalize_metric_type] is a function of the lowered
    name alone, up to the text of the error message. *)
Definition metric_outcome (normalized : string) : option string :=
  if String.eqb normalized "euclidean" then Some "l2"%string
  else if str_in normalized metric_names then Some normalized
  else None.

(** The answer of [_check_for_numpy] once numpy is imported, which it is
    whenever an ndarray exists. *)
Definition numpy_check (data : PyObject) : bool :=
  match data with
  | NpNdarray _ => true
  | _ => false
  end.

(** A logical batch: rows of [batch_D] elements each. *)
Record VectorBatch : Type := {
  batch_D : nat;
  batch_rows : list (list scalar)
}.

Definition batch_N (b : VectorBatch) : nat := length (batch_rows b).


(** Its three representations. *)
Definition as_list_array (b : VectorBatch) : FixedSizeListArray :=
  {| value_type := float32;
     list_size := batch_D b;
     fsl_length := batch_N b;
     fsl_values := concat (batch_rows b) |}.


Definition as_ndarray (b : VectorBatch) : ndarray :=
  {| dtype := float32;
     shape := [batch_N b; batch_D b];
     item := fun idx =>
               match idx with
               | [i; j] => nth j (nth i (batch_rows b) []) 0%Z
               | _ => 0%Z
               end;
     nd_class := nd_plain |}.

(** The [i]-th list of a fixed-size-list array. *)
Definition fsl_row (a : FixedSizeListArray) (i : nat) : list scalar :=
  firstn (list_size a) (skipn (i * list_size a) (fsl_values a)).

(** Row [i] of a two-dimensional ndarray. *)
Definition nd_row (a : ndarray) (i : nat) : list scalar :=
  map (fun j => item a [i; j]) (seq 0 (getitem (shape a) 1)).

(** Acting on every element of an array. *)
Definition map_ndarray (f : scalar -> scalar) (a : ndarray) : ndarray :=
  {| dtype := dtype a; shape := shape a; item := fun idx => f (item a idx);
     nd_class := nd_class a |}.

Definition map_list_array (f : scalar -> scalar) (a : FixedSizeListArray)
  : FixedSizeListArray :=
  {| value_type := value_type a;
     list_size := list_size a;
     fsl_length := fsl_length a;
     fsl_values := map f (fsl_values a) |}.

(** The rank test the normaliser makes right after the variant test. *)
Definition wrong_rank (data : PyObject) : bool :=
  match data with
  | PaFixedShapeTensorArray t => negb (length (tensor_shape t) =? 1)%nat
  | NpNdarray n => negb (length (shape n) =? 2)%nat
  | _ => false
  end.

Definition element_type (data : PyObject) : option DataType :=
  match data with
  | PaFixedSizeListArray a => Some (value_type a)
  | PaFixedShapeTensorArray t => Some (value_type (storage t))
  | NpNdarray n => Some (dtype n)
  | PyOther _ => None
  end.


(** What the spec asks of a native array of [N] rows and [D] columns. *)
Definition rewraps (chk : PyObject -> bool) (a : ndarray) (N D : nat) : Prop :=
  exists out : FixedSizeListArray,
    KMeans._to_fixed_size_list chk (NpNdarray a) = ok out /\
    value_type out = float32 /\
    list_size out = D /\
    fsl_length out = N /\
    fsl_values out = reshape_flat a /\
    (forall i : nat, i < N -> fsl_row out i = nd_row a i).

(** The failure rules of the spec, each read on its own. *)
Definition taxonomy_as_stated (chk : PyObject -> bool) (data : PyObject)
  : Prop :=
  (forall t : DataType,
      element_type data = Some t -> t <> float32 ->
      fails_with (KMeans._to_fixed_size_list chk data) TypeMismatch) /\
  (wrong_rank data = true ->
   fails_with (KMeans._to_fixed_size_list chk data) ShapeError) /\
  (element_type data = None ->
   fails_with (KMeans._to_fixed_size_list chk data) UnsupportedType).

(** Rows the validator queries, and what it reads off the trace. *)
Definition has_no_nan (v : vec) : bool := negb (np_isnan_any v).

Definition nan_rows (vecs : list vec) : Z :=
  Z.of_nat (length (filter np_isnan_any vecs)).

Definition total_of (vecs : list vec) : Z :=
  Z.of_nat (length (filter has_no_nan vecs)).

(** The query got at least one result. *)
Definition answered (ev : Event) : bool :=
  match ev with
  | Ev_nearest _ (inr (_ :: _)) => true
  | Ev_nearest _ _ => false
  | _ => true
  end.

(** The top-1 distance of the answer is within the tolerance. *)
Definition top1_pass (ev : Event) : bool :=
  match ev with
  | Ev_nearest _ (inr (distance :: _)) =>
      float_lt (float_abs distance) epsilon
  | _ => false
  end.

Definition passes_of (trace : list Event) : Z :=
  Z.of_nat (length (filter top1_pass trace)).

Definition nearest_queries (trace : list Event) : list Nearest :=
  flat_map (fun ev => match ev with
                      | Ev_nearest nearest _ => [nearest]
                      | _ => []
                      end) trace.

(** The outcome, final state and trace of a computation. *)
Definition outcome {S A : Type} (r : result A * S * list Event) : result A :=
  fst (fst r).
Definition trace_of {S A : Type} (r : result A * S * list Event)
  : list Event := snd r.

(** An in-memory dataset for examples: one vector column, a fixed answer
    per query, and a counter of the queries served as its state. *)
Definition memory_dataset (rows : list vec)
           (answer : Nearest -> result (list pyfloat)) : LanceDataset nat :=
  {| to_table := fun s =>
       (ok (fun c => if String.eqb c "vector" then Some rows else None), s);
     sample := fun n s =>
       (ok (fun c => if String.eqb c "vector"
                     then Some (firstn (Z.to_nat n) rows) else None), s);
     to_table_nearest := fun nearest s => (answer nearest, Datatypes.S s) |}.

Definition float_zero : pyfloat := S754_zero false.
Definition float_one : pyfloat := S754_finite false 4503599627370496 (-52).
Definition float_nan : pyfloat := S754_nan.

(** Sample arrays. *)
Definition batch_2x2 : VectorBatch :=
  {| batch_D := 2;
     batch_rows := [[0x3f800000; 0x40000000]; [0x40400000; 0x7fc00000]]%Z |}.


Definition ndarray_2x3 : ndarray :=
  {| dtype := float32;
     shape := [2; 3];
     item := fun idx => match idx with
                        | [i; j] => Z.of_nat (10 * i + j)
                        | _ => 0%Z
                        end;
     nd_class := nd_plain |}.

Definition ndarray_0x4 : ndarray :=
  {| dtype := float32; shape := [0; 4]; item := fun _ => 0%Z;
     nd_class := nd_plain |}.

Definition ndarray_2x0 : ndarray :=
  {| dtype := float32; shape := [2; 0]; item := fun _ => 0%Z;
     nd_class := nd_plain |}.

Definition ndarray_rank3_float64 : ndarray :=
  {| dtype := float64; shape := [2; 3; 4]; item := fun _ => 0%Z;
     nd_class := nd_plain |}.

(** A float32 [np.matrix] of two rows and two columns. *)
Definition matrix_2x2 : ndarray :=
  {| dtype := float32; shape := [2; 2]; item := fun _ => 0%Z;
     nd_class := nd_matrix |}.

Definition list_array_float64 : FixedSizeListArray :=
  {| value_type := float64; list_size := 2; fsl_length := 1;
     fsl_values := [0; 0]%Z |}.

(** Events that happened before a computation, put in front of its trace. *)
Definition prepend {S A : Type} (before : list Event)
           (r : result A * S * list Event) : result A * S * list Event :=
  match r with
  | (x, s, trace) => (x, s, before ++ trace)
  end.

(** The two lines before the loop went through and gave these rows. *)
Definition materialized {S : Type} (dataset : LanceDataset S)
           (sample_size : option Z) (column : string) (st : S)
           (vecs : list vec) (st1 : S) (before : list Event) : Prop :=
  exists data : Table,
    materialize dataset sample_size st = (ok data, st1, before) /\
    column_to_numpy data column = ok vecs.

(** Sample runs of the validator. *)
Definition float_ratio (a b : Z) : pyfloat :=
  SFdiv prec emax (int_operand a) (int_operand b).

Definition row_of (z : Z) : vec := [float_ratio z 1].

(** The index finds every row but the one that starts with 5. *)
Definition misses_five (nearest : Nearest) : result (list pyfloat) :=
  match nearest_q nearest with
  | x :: _ => if SFeqb x (float_ratio 5 1) then ok [float_one]
              else ok [float_zero]
  | [] => ok [float_zero]
  end.

Definition five_rows : list vec := map row_of [1; 2; 3; 4; 5]%Z.

Definition five_rows_dataset : LanceDataset nat :=
  memory_dataset five_rows misses_five.

Definition rows_with_nan : list vec :=
  [row_of 1; [float_nan; float_one]; row_of 5].

Definition rows_with_nan_dataset : LanceDataset nat :=
  memory_dataset rows_with_nan misses_five.

Definition all_nan_rows : list vec := [[float_one; float_nan]; [float_nan]].

Definition all_nan_dataset : LanceDataset nat :=
  memory_dataset all_nan_rows misses_five.

(** Ten rows of which the index finds the first six. *)
Definition finds_up_to_six (nearest : Nearest) : result (list pyfloat) :=
  match nearest_q nearest with
  | x :: _ => if SFltb (float_ratio 6 1) x then ok [float_one]
              else ok [float_zero]
  | [] => ok [float_zero]
  end.

Definition ten_rows : list vec := map row_of [1; 2; 3; 4; 5; 6; 7; 8; 9; 10]%Z.

Definition ten_rows_dataset : LanceDataset nat :=
  memory_dataset ten_rows finds_up_to_six.

(** Ten rows, one of them with a NaN, the other nine found. *)
Definition nine_good_rows : list vec :=
  map row_of [1; 2; 3]%Z ++ [[float_nan]] ++ map row_of [4; 5; 6; 1; 2; 3]%Z.

Definition nine_good_dataset : LanceDataset nat :=
  memory_dataset nine_good_rows finds_up_to_six.

(** An index that returns no neighbour at all. *)
Definition empty_index_dataset : LanceDataset nat :=
  memory_dataset [row_of 1] (fun _ => ok []).

(** ** The rest of util.py *)

(** Exceptions of classes that the functions above never raise, beside
    those of [exn]. *)
Inductive pyexn : Type :=
| Exn (e : exn)
| TypeError (msg : string)
| OverflowError (msg : string).

Definition pyresult (A : Type) : Type := (pyexn + A)%type.

(** [except ValueError] catches ValueError and its subclasses. *)
Definition is_ValueError (e : pyexn) : bool :=
  match e with
  | Exn (ValueError _) | Exn (ArrowInvalid _) => true
  | _ => false
  end.

(** *** td_to_micros *)

(** [datetime.timedelta], as it is stored: days, seconds and microseconds,
    the last two within a day and a second. *)
Record timedelta : Type := {
  days : Z;
  seconds : Z;
  microseconds : Z
}.

(** What timedelta arithmetic works on: the whole duration in microseconds. *)
Definition to_microseconds (td : timedelta) : Z :=
  ((days td * 86400 + seconds td) * 1000000 + microseconds td)%Z.

(** [m / 2^shift] rounded to the nearest integer, halves to the even one. *)
Definition round_half_even (m : Z) (shift : positive) : Z :=
  let d := Z.pow_pos 2 shift in
  let (q, r) := Z.div_eucl m d in
  match (2 * r ?= d)%Z with
  | Lt => q
  | Gt => (q + 1)%Z
  | Eq => if Z.even q then q else (q + 1)%Z
  end.

(** [round(x)] on a float, without ndigits: an int. *)
Definition float_round (x : pyfloat) : pyresult Z :=
  match x with
  | S754_zero _ => inr 0%Z
  | S754_finite s m (Zneg shift) =>
      let n := round_half_even (Zpos m) shift in
      inr (if s then (- n)%Z else n)
  | S754_finite s m e =>
      let n := (Zpos m * 2 ^ e)%Z in
      inr (if s then (- n)%Z else n)
  | S754_infinity _ =>
      inl (OverflowError "cannot convert float infinity to integer")
  | S754_nan => inl (Exn (ValueError "cannot convert float NaN to integer"))
  end.

(** [td1 / td2] on timedeltas: the true division of their microseconds. *)
Definition timedelta_truediv (a b : timedelta) : pyresult pyfloat :=
  match int_truediv (to_microseconds a) (to_microseconds b) with
  | inl e => inl (Exn e)
  | inr x => inr x
  end.

Definition one_microsecond : timedelta :=
  {| days := 0; seconds := 0; microseconds := 1 |}.

Definition td_to_micros (td : timedelta) : pyresult Z :=
  match timedelta_truediv td one_microsecond with
  | inl e => inl e
  | inr x => float_round x
  end.

(** *** sanitize_ts *)

Record datetime : Type := {
  year : Z; month : Z; day : Z;
  hour : Z; minute : Z; second : Z; microsecond : Z
}.

(** [pd.Timestamp], a subclass of datetime with nanoseconds. *)
Record Timestamp : Type := {
  ts_datetime : datetime;
  ts_nanosecond : Z
}.

(** What [sanitize_ts] may be handed; anything else comes with its [str]
    and the [str] of its type. *)
Inductive TsObject : Type :=
| TsStr (s : string)
| TsTimestamp (t : Timestamp)
| TsDatetime (d : datetime)
| TsOther (shown type_shown : string).

Definition msg_parse_head : string := "Failed to parse timestamp string ".
Definition msg_parse_tail : string := ". Try installing Pandas.".
Definition msg_unrecognized : string := "Unrecognized version timestamp ".

Section SanitizeTs.

(** [lance.dependencies._check_for_pandas], pandas' [to_datetime] and
    [Timestamp.to_pydatetime], and [datetime.strptime] with the format
    ["%Y-%m-%d %H:%M:%S"] are taken as given. *)
Variable _check_for_pandas : TsObject -> bool.
Variable pd_to_datetime : string -> pyresult Timestamp.
Variable to_pydatetime : Timestamp -> pyresult datetime.
Variable strptime : string -> pyresult datetime.

Definition sanitize_ts (ts : TsObject) : pyresult TsObject :=
  match ts with
  | TsStr s =>
      if _check_for_pandas ts
      then
        match pd_to_datetime s with
        | inl e => inl e
        | inr stamp =>
            match to_pydatetime stamp with
            | inl e => inl e
            | inr d => inr (TsDatetime d)
            end
        end
      else
        match strptime s with
        | inr d => inr (TsDatetime d)
        | inl e =>
            if is_ValueError e
            then inl (Exn (ValueError (msg_parse_head ++ s ++ msg_parse_tail)))
            else inl e
        end
  | TsTimestamp stamp =>
      if _check_for_pandas ts
      then
        match to_pydatetime stamp with
        | inl e => inl e
        | inr d => inr (TsDatetime d)
        end
      else inr ts
  | TsDatetime _ => inr ts
  | TsOther shown type_shown =>
      inl (TypeError (msg_unrecognized ++ shown ++ " of type " ++ type_shown))
  end.

End SanitizeTs.

(** *** KMeans: __repr__, centroids, fit, predict *)

(** [pa.fixed_shape_tensor(value_type, shape)]. *)
Record FixedShapeTensorType : Type := {
  tensor_value_type : DataType;
  tensor_type_shape : list nat
}.

Definition fixed_shape_tensor (value_type : DataType) (shape : list nat)
  : FixedShapeTensorType :=
  {| tensor_value_type := value_type; tensor_type_shape := shape |}.

(** [pa.FixedShapeTensorArray.from_storage(typ, storage)]: the storage must
    be a fixed-size list of the tensor's value type whose list size is the
    number of elements of one tensor. *)
Definition from_storage (typ : FixedShapeTensorType)
           (storage : FixedSizeListArray) : result FixedShapeTensorArray :=
  if DataType_eqb (value_type storage) (tensor_value_type typ)
     && (list_size storage =? fold_right Nat.mul 1 (tensor_type_shape typ))%nat
  then ok {| tensor_shape := tensor_type_shape typ; storage := storage |}
  else raise (Foreign "TypeError: Incompatible storage type").

Module KMeansMethods.

(** A call on the native model held in [self._kmeans]. *)
Inductive ModelCall : Type :=
| Call_centroids
| Call_fit (arr : FixedSizeListArray)
| Call_predict (arr : FixedSizeListArray).

Section Methods.

Variable _check_for_numpy : PyObject -> bool.
Variable native : Type.

#[local] Arguments KMeans.Build_t {native}.
#[local] Arguments KMeans.k {native}.
#[local] Arguments KMeans._metric_type {native}.
#[local] Arguments KMeans._kmeans {native}.

(** The methods of the native model: each may change the model. *)
Variable native_centroids :
  native -> result (option FixedSizeListArray) * native.
Variable native_fit : native -> FixedSizeListArray -> result unit * native.
Variable native_predict :
  native -> FixedSizeListArray -> result (list Z) * native.

Definition with_model (self : KMeans.t native) (model : native)
  : KMeans.t native :=
  KMeans.Build_t (KMeans.k self) (KMeans._metric_type self) model.

Definition __repr__ (self : KMeans.t native) : string :=
  ("lance.KMeans(k=" ++ str_int (KMeans.k self)
   ++ ", metric_type=" ++ KMeans._metric_type self ++ ")")%string.

(** The [centroids] property: the calls on the native model, the value or
    the exception, and the object afterwards. *)
Definition centroids (self : KMeans.t native)
  : list ModelCall * result (option FixedShapeTensorArray) * KMeans.t native :=
  match native_centroids (KMeans._kmeans self) with
  | (inl e, model) => ([Call_centroids], raise e, with_model self model)
  | (inr None, model) => ([Call_centroids], ok None, with_model self model)
  | (inr (Some ret), model) =>
      let shape := [list_size ret] in
      let tensor_type := fixed_shape_tensor (value_type ret) shape in
      ([Call_centroids],
       match from_storage tensor_type ret with
       | inl e => raise e
       | inr ret => ok (Some ret)
       end,
       with_model self model)
  end.

Definition fit (self : KMeans.t native) (data : PyObject)
  : list ModelCall * result unit * KMeans.t native :=
  match KMeans._to_fixed_size_list _check_for_numpy data with
  | inl e => ([], raise e, self)
  | inr arr =>
      match native_fit (KMeans._kmeans self) arr with
      | (r, model) => ([Call_fit arr], r, with_model self model)
      end
  end.

Definition predict (self : KMeans.t native) (data : PyObject)
  : list ModelCall * result (list Z) * KMeans.t native :=
  match KMeans._to_fixed_size_list _check_for_numpy data with
  | inl e => ([], raise e, self)
  | inr arr =>
      match native_predict (KMeans._kmeans self) arr with
      | (r, model) => ([Call_predict arr], r, with_model self model)
      end
  end.

End Methods.

Arguments with_model {native}.
Arguments __repr__ {native}.
Arguments centroids {native}.
Arguments fit _check_for_numpy {native}.
Arguments predict _check_for_numpy {native}.

End KMeansMethods.

(** ** Vocabulary of the further statements *)

(** A float that is not below zero (NaN counts: it is below nothing). *)
Definition not_negative (x : pyfloat) : bool :=
  match x with
  | S754_zero _ | S754_nan => true
  | S754_finite s _ _ | S754_infinity s => negb s
  end.

Definition is_query (ev : Event) : bool :=
  match ev with
  | Ev_nearest _ _ => true
  | _ => false
  end.

(** Every query of the trace came back with a top-1 distance within the
    tolerance. *)
Definition query_passed (ev : Event) : bool :=
  match ev with
  | Ev_nearest _ _ => top1_pass ev
  | _ => true
  end.

(** The first thing the validator asks of the dataset. *)
Definition materialization (sample_size : option Z) : Event :=
  match sample_size with
  | None => Ev_to_table
  | Some n => Ev_sample n
  end.

(** What a failed query raises in the validator. *)
Definition failure_of (ev : Event) : exn :=
  match ev with
  | Ev_nearest _ (inl e) => e
  | _ => IndexError
  end.

(** Acting on every element of whatever the normaliser is given. *)
Definition map_object (f : scalar -> scalar) (data : PyObject) : PyObject :=
  match data with
  | PaFixedSizeListArray a => PaFixedSizeListArray (map_list_array f a)
  | PaFixedShapeTensorArray t =>
      PaFixedShapeTensorArray
        {| tensor_shape := tensor_shape t;
           storage := map_list_array f (storage t) |}
  | NpNdarray n => NpNdarray (map_ndarray f n)
  | PyOther name => PyOther name
  end.

Definition map_normalised (f : scalar -> scalar)
           (r : result FixedSizeListArray) : result FixedSizeListArray :=
  match r with
  | inl e => inl e
  | inr out => inr (map_list_array f out)
  end.

(** The arrays handed to the native model by a list of calls. *)
Definition arrays_of (calls : list KMeansMethods.ModelCall)
  : list FixedSizeListArray :=
  flat_map (fun c => match c with
                     | KMeansMethods.Call_fit arr
                     | KMeansMethods.Call_predict arr => [arr]
                     | KMeansMethods.Call_centroids => []
                     end) calls.

(** Samples. *)
Definition one_day_two_seconds : timedelta :=
  {| days := 1; seconds := 2; microseconds := 3 |}.

Definition a_datetime : datetime :=
  {| year := 2024; month := 1; day := 2;
     hour := 3; minute := 4; second := 5; microsecond := 0 |}.

(** A [strptime] that knows one string. *)
Definition strptime_sample (s : string) : pyresult datetime :=
  if String.eqb s "2024-01-02 03:04:05" then inr a_datetime
  else inl (Exn (ValueError "time data does not match format")).

Definition no_pandas (ts : TsObject) : bool := false.
Definition pd_absent (s : string) : pyresult Timestamp :=
  inl (Exn (Foreign "pandas is not installed")).
Definition stamp_datetime (t : Timestamp) : pyresult datetime :=
  inr (ts_datetime t).

(** A native model that counts the calls it serves. *)
Definition counting_fit (model : nat) (arr : FixedSizeListArray)
  : result unit * nat := (ok tt, S model).
Definition counting_predict (model : nat) (arr : FixedSizeListArray)
  : result (list Z) * nat := (ok (repeat 0%Z (fsl_length arr)), S model).
Definition sample_centroids (model : nat)
  : result (option FixedSizeListArray) * nat :=
  (ok (Some (as_list_array batch_2x2)), model).

Definition sample_model : KMeans.t nat :=
  KMeans.Build_t nat 2 "l2" 0.

(** The index finds nothing within the tolerance. *)
Definition finds_nothing (nearest : Nearest) : result (list pyfloat) :=
  ok [float_one].

(** The index fails on the row that starts with 2. *)
Definition fails_on_two (nearest : Nearest) : result (list pyfloat) :=
  match nearest_q nearest with
  | x :: _ => if SFeqb x (float_ratio 2 1) then raise (Foreign "io error")
              else ok [float_zero]
  | [] => ok [float_zero]
  end.

Definition three_rows : list vec := map row_of [1; 2; 3]%Z.

Definition all_found_dataset : LanceDataset nat :=
  memory_dataset three_rows (fun _ => ok [float_zero]).

Definition none_found_dataset : LanceDataset nat :=
  memory_dataset three_rows finds_nothing.

Definition failing_dataset : LanceDataset nat :=
  memory_dataset three_rows fails_on_two.

Definition empty_dataset : LanceDataset nat :=
  memory_dataset [] misses_five.

(** A dataset that cannot be read at all. *)
Definition broken_dataset : LanceDataset nat :=
  {| to_table := fun s => (raise (Foreign "io error"), s);
     sample := fun n s => (raise (Foreign "io error"), s);
     to_table_nearest := fun nearest s => (raise (Foreign "io error"), s) |}.

Definition failed_query : Event :=
  Ev_nearest (query "vector" (row_of 2) 5) (raise (Foreign "io error")).
(** * Properties *)

(** ** Strings and error kinds *)

Lemma str_in_In (s : string) (l : list string) :
  str_in s l = true <-> In s l.
Proof.
  unfold str_in. rewrite existsb_exists. split.
  - intros [x [Hx Heq]]. apply String.eqb_eq in Heq. now subst.
  - intros H. exists s. split; [assumption | apply String.eqb_refl].
Qed.

Lemma prefix_app (p s : string) : prefix p (p ++ s) = true.
Proof.
  induction p as [|c p IH]; simpl.
  - now destruct s.
  - destruct (ascii_dec c c) as [_|Hne]; [exact IH | now elim Hne].
Qed.

Lemma contains_app_r (pre s sub : string) :
  contains s sub -> contains (pre ++ s) sub.
Proof.
  intros [a [b ->]]. exists (pre ++ a)%string, b.
  induction pre as [|c pre IH]; simpl; [reflexivity | now rewrite IH].
Qed.

Lemma contains_here (sub post : string) : contains (sub ++ post) sub.
Proof. now exists EmptyString, post. Qed.

Lemma invalid_metric_kind (s : string) :
  error_kind (ValueError (msg_invalid_metric ++ s)) = Some InvalidArgument.
Proof. unfold error_kind. now rewrite prefix_app. Qed.

(** ** The metric normaliser *)

Lemma lower_ascii_idem (c : ascii) : lower_ascii (lower_ascii c) = lower_ascii c.
Proof.
  destruct c as [[] [] [] [] [] [] [] []]; reflexivity.
Qed.

Lemma lower_idem (s : string) : lower (lower s) = lower s.
Proof.
  induction s as [|c s IH]; simpl; [reflexivity|].
  now rewrite lower_ascii_idem, IH.
Qed.

Lemma normalize_metric_outcome (metric_type : string) :
  _normalize_metric_type metric_type =
  match metric_outcome (lower metric_type) with
  | Some m => ok m
  | None => raise (ValueError (msg_invalid_metric ++ metric_type))
  end.
Proof.
  unfold _normalize_metric_type, metric_outcome.
  destruct (String.eqb (lower metric_type) "euclidean"); [reflexivity|].
  now destruct (str_in (lower metric_type) metric_names).
Qed.

(** C7. [_normalize_metric_type] looks at its argument only through
    [lower]: names that differ in case have the same outcome; "euclidean"
    in any casing gives "l2"; a name that lowers to l2, dot or cosine gives
    that lowered name; every other string fails with InvalidArgument, and
    then [KMeans.__init__] stops before the native model is called. *)
Theorem normalize_metric_type_contract (metric_type : string) :
  (forall other : string,
      lower other = lower metric_type ->
      forall m : string,
        _normalize_metric_type other = ok m <->
        _normalize_metric_type metric_type = ok m) /\
  (lower metric_type = "euclidean"%string ->
   _normalize_metric_type metric_type = ok "l2"%string) /\
  (In (lower metric_type) metric_names ->
   _normalize_metric_type metric_type = ok (lower metric_type)) /\
  (lower metric_type <> "euclidean"%string ->
   ~ In (lower metric_type) metric_names ->
   fails_with (_normalize_metric_type metric_type) InvalidArgument /\
   forall (native : Type)
          (_KMeans : Z -> string -> Z -> option FixedSizeListArray
                     -> result native)
          (k max_iters : Z) (centroids : option FixedSizeListArray),
     exists e : exn,
       KMeans.__init__ _KMeans k metric_type max_iters centroids
       = ([], raise e) /\
       error_kind e = Some InvalidArgument).
Proof.
  repeat split.
  - rewrite !normalize_metric_outcome, H.
    destruct (metric_outcome (lower metric_type)); [exact (fun E => E) | discriminate].
  - rewrite !normalize_metric_outcome, H.
    destruct (metric_outcome (lower metric_type)); [exact (fun E => E) | discriminate].
  - intros H. rewrite normalize_metric_outcome, H. reflexivity.
  - intros H. rewrite normalize_metric_outcome.
    destruct H as [H | [H | [H | []]]]; rewrite <- H; reflexivity.
  - rewrite normalize_metric_outcome. unfold metric_outcome.
    apply String.eqb_neq in H. rewrite H.
    destruct (str_in (lower metric_type) metric_names) eqn:E.
    + apply str_in_In in E. contradiction.
    + eexists. split; [reflexivity | apply invalid_metric_kind].
  - intros native _KMeans k max_iters centroids.
    unfold KMeans.__init__. rewrite normalize_metric_outcome. unfold metric_outcome.
    apply String.eqb_neq in H. rewrite H.
    destruct (str_in (lower metric_type) metric_names) eqn:E.
    + apply str_in_In in E. contradiction.
    + eexists. split; [reflexivity | apply invalid_metric_kind].
Qed.

(** "EUCLIDEAN" and "L2" give "l2", "Cosine" gives "cosine", "manhattan" is
    refused before [_KMeans] is reached. *)
Lemma normalize_metric_type_contract_witness :
  _normalize_metric_type "EUCLIDEAN" = ok "l2"%string /\
  (_normalize_metric_type "L2" = ok "l2"%string <->
   _normalize_metric_type "l2" = ok "l2"%string) /\
  _normalize_metric_type "Cosine" = ok "cosine"%string /\
  fails_with (_normalize_metric_type "manhattan") InvalidArgument /\
  exists e : exn,
    KMeans.__init__ (fun _ _ _ _ => ok tt) 8 "manhattan" 50 None
    = ([], raise e) /\
    error_kind e = Some InvalidArgument.
Proof.
  split; [|split; [|split; [|split]]].
  - apply (normalize_metric_type_contract "EUCLIDEAN"). reflexivity.
  - apply (normalize_metric_type_contract "l2" ). reflexivity.
  - apply (normalize_metric_type_contract "Cosine"). simpl. tauto.
  - apply (normalize_metric_type_contract "manhattan").
    + discriminate.
    + simpl. intros [H | [H | [H | []]]]; discriminate.
  - apply (normalize_metric_type_contract "manhattan").
    + discriminate.
    + simpl. intros [H | [H | [H | []]]]; discriminate.
Defined.


(** ** The vector-array normaliser *)

Lemma DataType_eqb_eq (a b : DataType) : DataType_eqb a b = true <-> a = b.
Proof. destruct a, b; simpl; split; congruence. Qed.

Lemma DataType_eqb_neq (a b : DataType) : DataType_eqb a b = false <-> a <> b.
Proof. destruct a, b; simpl; split; congruence. Qed.

Lemma length_flat_map_const {A B : Type} (f : A -> list B) (n : nat)
      (l : list A) :
  (forall x, length (f x) = n) -> length (flat_map f l) = length l * n.
Proof.
  intros Hf. induction l as [|x l IH]; simpl; [reflexivity|].
  now rewrite length_app, Hf, IH.
Qed.

Lemma length_c_order (shp : list nat) :
  length (c_order shp) = fold_right Nat.mul 1 shp.
Proof.
  induction shp as [|d rest IH]; simpl; [reflexivity|].
  rewrite (length_flat_map_const _ (fold_right Nat.mul 1 rest)).
  - now rewrite length_seq.
  - intros x. now rewrite length_map.
Qed.

Lemma length_reshape_flat (a : ndarray) (N D : nat) :
  shape a = [N; D] -> length (reshape_flat a) = N * D.
Proof.
  intros Hs. unfold reshape_flat. rewrite length_map, length_c_order, Hs.
  simpl. lia.
Qed.

Lemma c_order_2 (N D : nat) :
  c_order [N; D] = flat_map (fun i => map (fun j => [i; j]) (seq 0 D)) (seq 0 N).
Proof.
  simpl. apply flat_map_ext. intros i.
  induction (seq 0 D) as [|j l IH]; simpl; [reflexivity | now rewrite IH].
Qed.

(** [reshape((-1,))] of a two-dimensional array is its rows laid end to
    end. *)
Lemma reshape_flat_rows (a : ndarray) (N D : nat) :
  shape a = [N; D] ->
  reshape_flat a = concat (map (nd_row a) (seq 0 N)).
Proof.
  intros Hs. unfold reshape_flat, nd_row. rewrite Hs, c_order_2. simpl getitem.
  rewrite flat_map_concat_map, concat_map, map_map.
  f_equal. apply map_ext. intros i. now rewrite map_map.
Qed.

Lemma concat_row (D : nat) (rows : list (list scalar)) (i : nat) :
  Forall (fun row => length row = D) rows ->
  i < length rows ->
  firstn D (skipn (i * D) (concat rows)) = nth i rows [].
Proof.
  intros Hwf. revert i. induction Hwf as [|row rows Hrow _ IH]; intros i Hi.
  - simpl in Hi. lia.
  - destruct i as [|i]; simpl.
    + rewrite firstn_app, <- Hrow, firstn_all, Nat.sub_diag. simpl.
      now rewrite app_nil_r.
    + rewrite skipn_app, <- Hrow.
      rewrite (skipn_all2 row) by lia. simpl.
      replace (length row + i * length row - length row)
        with (i * length row) by lia.
      rewrite Hrow. apply IH. simpl in Hi. lia.
Qed.



Lemma from_arrays_ok (values : list scalar) (t : DataType) (N D : nat) :
  1 <= D -> length values = N * D ->
  from_arrays (pa_array values t) D
  = ok {| value_type := t; list_size := D; fsl_length := N;
          fsl_values := values |}.
Proof.
  intros HD Hlen. unfold from_arrays. simpl.
  destruct (Nat.leb_spec D 0) as [H0 | _]; [lia|].
  rewrite Hlen, Nat.Div0.mod_mul. simpl.
  now rewrite Nat.div_mul by lia.
Qed.

Lemma array_type_kind (s : string) :
  error_kind (ValueError (msg_array_type ++ s)) = Some TypeMismatch.
Proof.
  unfold error_kind. rewrite (prefix_app msg_array_type). reflexivity.
Qed.

Lemma numpy_type_kind (s : string) :
  error_kind (ValueError (msg_numpy_type ++ s)) = Some TypeMismatch.
Proof.
  unfold error_kind. rewrite (prefix_app msg_numpy_type). reflexivity.
Qed.

Lemma tensor_rank_kind (s : string) :
  error_kind (ValueError (msg_tensor_rank ++ s)) = Some ShapeError.
Proof.
  unfold error_kind. rewrite (prefix_app msg_tensor_rank). reflexivity.
Qed.

Lemma numpy_rank_kind (s : string) :
  error_kind (ValueError (msg_numpy_rank ++ s)) = Some ShapeError.
Proof.
  unfold error_kind. rewrite (prefix_app msg_numpy_rank). reflexivity.
Qed.

Lemma unsupported_kind :
  error_kind (ValueError msg_unsupported) = Some UnsupportedType.
Proof. reflexivity. Qed.

Lemma fails_with_unique {A : Type} (r : result A) (k1 k2 : ErrorKind) :
  fails_with r k1 -> fails_with r k2 -> k1 = k2.
Proof.
  intros [e1 [H1 K1]] [e2 [H2 K2]]. rewrite H1 in H2. injection H2 as <-.
  congruence.
Qed.

(** The kind of an exception whose message was built at a raise site of
    the normaliser. *)
Ltac kind_known :=
  first [ apply array_type_kind | apply numpy_type_kind
        | apply tensor_rank_kind | apply numpy_rank_kind
        | apply unsupported_kind ].

(** The goal is [fails_with (raise (ValueError _)) k]. *)
Ltac raised := eexists; split; [reflexivity | kind_known].

(** The hypothesis says the call raised; name the kind of what it raised. *)
Ltac raised_in H :=
  injection H as <-;
  first [ left; solve [kind_known]
        | right; left; solve [kind_known]
        | right; right; left; solve [kind_known] ].

Section NormaliserFacts.

Variable _check_for_numpy : PyObject -> bool.

(** Every ndarray passes the numpy check. *)
Hypothesis numpy_seen :
  forall n : ndarray, _check_for_numpy (NpNdarray n) = true.

Local Abbreviation normalise :=
  (KMeans._to_fixed_size_list _check_for_numpy).

Lemma normalise_list_array (a : FixedSizeListArray) :
  value_type a = float32 -> normalise (PaFixedSizeListArray a) = ok a.
Proof.
  intros Ht. rewrite KMeans._to_fixed_size_list_equation_1, Ht. reflexivity.
Qed.


Lemma normalise_ndarray (a : ndarray) (N D : nat) :
  shape a = [N; D] -> dtype a = float32 -> nd_class a = nd_plain ->
  normalise (NpNdarray a) = from_arrays (pa_array (reshape_flat a) float32) D.
Proof.
  intros Hs Ht Hc. rewrite KMeans._to_fixed_size_list_equation_3.
  unfold pa_array_reshaped, reshaped_ndim.
  rewrite numpy_seen, Hs, Ht, Hc. reflexivity.
Qed.

Lemma normalise_ndarray_ok (a : ndarray) (N D : nat) :
  shape a = [N; D] -> dtype a = float32 -> nd_class a = nd_plain ->
  1 <= D ->
  normalise (NpNdarray a)
  = ok {| value_type := float32; list_size := D; fsl_length := N;
          fsl_values := reshape_flat a |}.
Proof.
  intros Hs Ht Hc HD. rewrite (normalise_ndarray a N D Hs Ht Hc).
  apply from_arrays_ok; [exact HD | now apply length_reshape_flat].
Qed.

(** A matrix gets as far as [pa.array], which refuses it. *)
Lemma normalise_matrix (a : ndarray) :
  length (shape a) = 2 -> dtype a = float32 -> nd_class a = nd_matrix ->
  normalise (NpNdarray a)
  = raise (ArrowInvalid "only handle 1-dimensional arrays").
Proof.
  intros Hs Ht Hc. rewrite KMeans._to_fixed_size_list_equation_3.
  unfold pa_array_reshaped, reshaped_ndim.
  rewrite numpy_seen, Hs, Ht, Hc. reflexivity.
Qed.


(** C8 (as amended). A float32 array of class np.ndarray (not np.matrix)
    and of shape (N, D), with D at least 1 and at most the largest int32,
    becomes the fixed-size-list array of list size D and length N over the
    C-order buffer, whose i-th list is the i-th row; N = 0 is included; and
    the result is the same whatever the elements are, element for
    element. *)
Theorem ndarray_rewrapped (a : ndarray) (N D : nat) :
  shape a = [N; D] -> dtype a = float32 -> nd_class a = nd_plain ->
  1 <= D -> (Z.of_nat D <= int32_max)%Z ->
  rewraps _check_for_numpy a N D /\
  forall f : scalar -> scalar,
    normalise (NpNdarray (map_ndarray f a))
    = match normalise (NpNdarray a) with
      | inr out => ok (map_list_array f out)
      | inl e => raise e
      end.
Proof.
  intros Hs Ht Hc HD _. split.
  - eexists. split; [apply (normalise_ndarray_ok a N D Hs Ht Hc HD)|].
    simpl. split; [reflexivity|]. split; [reflexivity|].
    split; [reflexivity|]. split; [reflexivity|].
    intros i Hi. unfold fsl_row. simpl.
    rewrite (reshape_flat_rows a N D Hs).
    rewrite (concat_row D).
    + rewrite (nth_indep _ [] (nd_row a 0)) by (rewrite length_map, length_seq; lia).
      rewrite map_nth, seq_nth by lia. reflexivity.
    + apply Forall_forall. intros row Hrow. apply in_map_iff in Hrow.
      destruct Hrow as [j [<- _]]. unfold nd_row.
      rewrite length_map, length_seq, Hs. reflexivity.
    + rewrite length_map, length_seq. exact Hi.
  - intros f.
    rewrite (normalise_ndarray_ok a N D Hs Ht Hc HD).
    rewrite (normalise_ndarray_ok (map_ndarray f a) N D) by assumption.
    unfold map_list_array, reshape_flat. simpl. now rewrite map_map.
Qed.

(** C9. Whatever [_to_fixed_size_list] returns is a float32
    fixed-size-list array that it returns unchanged when given it again. *)
Theorem normalise_fixed_point (data : PyObject) (out : FixedSizeListArray) :
  normalise data = ok out ->
  value_type out = float32 /\ normalise (PaFixedSizeListArray out) = ok out.
Proof.
  assert (Hlist : forall a, normalise (PaFixedSizeListArray a) = ok out ->
                            value_type out = float32).
  { intros a. rewrite KMeans._to_fixed_size_list_equation_1.
    destruct (DataType_eqb (value_type a) float32) eqn:E; simpl;
      [|discriminate].
    intros H. injection H as <-. now apply DataType_eqb_eq. }
  intros H.
  assert (Ht : value_type out = float32).
  { destruct data as [a | t | n | name].
    - exact (Hlist a H).
    - rewrite KMeans._to_fixed_size_list_equation_2 in H.
      destruct (negb (length (tensor_shape t) =? 1)); [discriminate|].
      exact (Hlist _ H).
    - rewrite KMeans._to_fixed_size_list_equation_3 in H.
      destruct (_check_for_numpy (NpNdarray n)); [|discriminate].
      destruct (negb (length (shape n) =? 2)); [discriminate|].
      destruct (negb (DataType_eqb (dtype n) float32)); [discriminate|].
      unfold pa_array_reshaped in H.
      destruct (reshaped_ndim n =? 1); [|discriminate].
      unfold from_arrays in H. simpl in H.
      destruct (getitem (shape n) 1 <=? 0); [discriminate|].
      destruct (negb _); [discriminate|].
      injection H as <-. reflexivity.
    - rewrite KMeans._to_fixed_size_list_equation_4 in H. discriminate. }
  split; [exact Ht | now apply normalise_list_array].
Qed.

(** C6 (as amended). The rank is looked at before the element type: a
    tensor array whose shape is not 1-D and an ndarray that is not 2-D fail
    with ShapeError; an accepted array of the right rank whose elements are
    not float32 fails with TypeMismatch; anything that is not one of the
    three accepted variants fails with UnsupportedType.  These are all the
    failures the normaliser raises itself; a failure of any other kind
    happens only on a float32 ndarray of rank 2, inside pyarrow, and there
    are such failures, so the three kinds do not cover every input. *)
Theorem failure_taxonomy (data : PyObject) :
  (wrong_rank data = true -> fails_with (normalise data) ShapeError) /\
  (wrong_rank data = false ->
   forall t : DataType,
     element_type data = Some t -> t <> float32 ->
     fails_with (normalise data) TypeMismatch) /\
  (element_type data = None -> fails_with (normalise data) UnsupportedType) /\
  (forall e : exn,
      normalise data = raise e ->
      error_kind e = Some ShapeError \/
      error_kind e = Some TypeMismatch \/
      error_kind e = Some UnsupportedType \/
      (error_kind e = None /\
       exists n : ndarray,
         data = NpNdarray n /\ length (shape n) = 2 /\ dtype n = float32)) /\
  (exists (other : PyObject) (e : exn),
      normalise other = raise e /\ error_kind e = None).
Proof.
  split; [|split; [|split; [|split]]].
  - (* wrong rank *)
    destruct data as [a | t | n | name]; simpl; try discriminate.
    + rewrite KMeans._to_fixed_size_list_equation_2. intros ->. raised.
    + rewrite KMeans._to_fixed_size_list_equation_3, numpy_seen.
      intros ->. raised.
  - (* right rank, wrong element type *)
    destruct data as [a | t | n | name]; simpl; try discriminate.
    + rewrite KMeans._to_fixed_size_list_equation_1.
      intros _ t Ht Hne. injection Ht as <-.
      apply DataType_eqb_neq in Hne. rewrite Hne. simpl. raised.
    + rewrite KMeans._to_fixed_size_list_equation_2,
              KMeans._to_fixed_size_list_equation_1.
      intros -> ty Ht Hne. injection Ht as <-.
      apply DataType_eqb_neq in Hne. rewrite Hne. simpl. raised.
    + rewrite KMeans._to_fixed_size_list_equation_3, numpy_seen.
      intros -> ty Ht Hne. injection Ht as <-.
      apply DataType_eqb_neq in Hne. rewrite Hne. simpl. raised.
  - (* another variant *)
    destruct data as [a | t | n | name]; simpl; try discriminate.
    rewrite KMeans._to_fixed_size_list_equation_4. intros _. raised.
  - (* every failure *)
    intros e. destruct data as [a | t | n | name].
    + rewrite KMeans._to_fixed_size_list_equation_1.
      destruct (negb _); [|discriminate]. intros H. raised_in H.
    + rewrite KMeans._to_fixed_size_list_equation_2,
              KMeans._to_fixed_size_list_equation_1.
      destruct (negb (length (tensor_shape t) =? 1)).
      * intros H. raised_in H.
      * destruct (negb _); [|discriminate]. intros H. raised_in H.
    + rewrite KMeans._to_fixed_size_list_equation_3, numpy_seen.
      destruct (negb (length (shape n) =? 2)) eqn:Hrank.
      * intros H. raised_in H.
      * destruct (negb (DataType_eqb (dtype n) float32)) eqn:Htype.
        { intros H. raised_in H. }
        apply negb_false_iff, Nat.eqb_eq in Hrank.
        apply negb_false_iff, DataType_eqb_eq in Htype.
        intros H. right. right. right. split.
        -- unfold pa_array_reshaped in H.
           destruct (reshaped_ndim n =? 1).
           ++ unfold from_arrays in H. simpl in H.
              destruct (getitem (shape n) 1 <=? 0);
                [injection H as <-; reflexivity|].
              destruct (negb _); [injection H as <-; reflexivity|].
              discriminate.
           ++ injection H as <-. reflexivity.
        -- exists n. split; [reflexivity|]. now split.
    + rewrite KMeans._to_fixed_size_list_equation_4.
      intros H. raised_in H.
  - (* a failure outside the three kinds *)
    exists (NpNdarray ndarray_2x0). eexists.
    rewrite KMeans._to_fixed_size_list_equation_3, numpy_seen.
    split; reflexivity.
Qed.

End NormaliserFacts.

Lemma numpy_check_seen (n : ndarray) : numpy_check (NpNdarray n) = true.
Proof. reflexivity. Defined.



(** A 2 x 3 array, and an empty batch of width 4. *)
Lemma ndarray_rewrapped_witness :
  (rewraps numpy_check ndarray_2x3 2 3 /\
   forall f : scalar -> scalar,
     KMeans._to_fixed_size_list numpy_check
       (NpNdarray (map_ndarray f ndarray_2x3))
     = match KMeans._to_fixed_size_list numpy_check (NpNdarray ndarray_2x3)
       with
       | inr out => ok (map_list_array f out)
       | inl e => raise e
       end) /\
  rewraps numpy_check ndarray_0x4 0 4.
Proof.
  split.
  - apply (ndarray_rewrapped numpy_check numpy_check_seen ndarray_2x3 2 3);
      [reflexivity | reflexivity | reflexivity | lia | discriminate].
  - apply (ndarray_rewrapped numpy_check numpy_check_seen ndarray_0x4 0 4);
      [reflexivity | reflexivity | reflexivity | lia | discriminate].
Defined.

(** C8, as the spec states it, fails on a float32 ndarray of shape (2, 0):
    no list array of width 0 comes back, [from_arrays] raises. *)
Lemma ndarray_no_columns_refused :
  shape ndarray_2x0 = [2; 0] /\ dtype ndarray_2x0 = float32 /\
  (exists msg : string,
      KMeans._to_fixed_size_list numpy_check (NpNdarray ndarray_2x0)
      = raise (ArrowInvalid msg)) /\
  ~ rewraps numpy_check ndarray_2x0 2 0.
Proof.
  split; [reflexivity|]. split; [reflexivity|]. split.
  - eexists. vm_compute. reflexivity.
  - intros [out [H _]]. vm_compute in H. discriminate.
Qed.

(** A float32 np.matrix passes the rank and type tests, but its
    [reshape((-1,))] is still two-dimensional and [pa.array] refuses it:
    no list array comes back, and the failure is of none of the kinds. *)
Example matrix_refused :
  KMeans._to_fixed_size_list numpy_check (NpNdarray matrix_2x2)
  = raise (ArrowInvalid "only handle 1-dimensional arrays") /\
  error_kind (ArrowInvalid "only handle 1-dimensional arrays") = None /\
  ~ rewraps numpy_check matrix_2x2 2 2.
Proof.
  assert (H : KMeans._to_fixed_size_list numpy_check (NpNdarray matrix_2x2)
              = raise (ArrowInvalid "only handle 1-dimensional arrays"))
    by (vm_compute; reflexivity).
  split; [exact H|]. split; [reflexivity|].
  intros [out [Hout _]]. rewrite H in Hout. discriminate.
Qed.

Lemma normalise_fixed_point_witness :
  value_type (as_list_array batch_2x2) = float32 /\
  KMeans._to_fixed_size_list numpy_check
    (PaFixedSizeListArray (as_list_array batch_2x2))
  = ok (as_list_array batch_2x2).
Proof.
  apply (normalise_fixed_point numpy_check (NpNdarray (as_ndarray batch_2x2))).
  reflexivity.
Defined.

(** A rank-3 float64 ndarray, a float64 list array, a Python list. *)
Lemma failure_taxonomy_witness :
  fails_with (KMeans._to_fixed_size_list numpy_check
                (NpNdarray ndarray_rank3_float64)) ShapeError /\
  fails_with (KMeans._to_fixed_size_list numpy_check
                (PaFixedSizeListArray list_array_float64)) TypeMismatch /\
  fails_with (KMeans._to_fixed_size_list numpy_check (PyOther "list"))
             UnsupportedType.
Proof.
  split; [|split].
  - apply (failure_taxonomy numpy_check numpy_check_seen
             (NpNdarray ndarray_rank3_float64)). reflexivity.
  - apply (failure_taxonomy numpy_check numpy_check_seen
             (PaFixedSizeListArray list_array_float64)) with (t := float64);
      [reflexivity | reflexivity | discriminate].
  - apply (failure_taxonomy numpy_check numpy_check_seen (PyOther "list")).
    reflexivity.
Defined.

(** C6, as the spec states it, fails on a rank-3 float64 ndarray: its
    element type is not float32, yet the failure is ShapeError, not
    TypeMismatch. *)
Lemma taxonomy_as_stated_fails_rank3_float64 :
  fails_with (KMeans._to_fixed_size_list numpy_check
                (NpNdarray ndarray_rank3_float64)) ShapeError /\
  ~ taxonomy_as_stated numpy_check (NpNdarray ndarray_rank3_float64).
Proof.
  assert (Hshape : fails_with (KMeans._to_fixed_size_list numpy_check
                      (NpNdarray ndarray_rank3_float64)) ShapeError).
  { eexists. split; vm_compute; reflexivity. }
  split; [exact Hshape|].
  intros [Htype _].
  specialize (Htype float64 eq_refl ltac:(discriminate)).
  pose proof (fails_with_unique _ _ _ Hshape Htype) as H. discriminate.
Qed.

(** ** The index validator *)

Lemma float_lt_irrefl (x : pyfloat) : float_lt x x = false.
Proof.
  unfold float_lt, SFltb, SFcompare.
  destruct x as [s | s | | s m e]; try destruct s; try reflexivity;
    rewrite Z.compare_refl;
    change (PosDef.Pos.compare_cont Eq m m) with (Pos.compare m m);
    now rewrite Pos.compare_refl.
Qed.


Lemma passes_of_cons (ev : Event) (trace : list Event) :
  passes_of (ev :: trace)
  = ((if top1_pass ev then 1 else 0) + passes_of trace)%Z.
Proof.
  unfold passes_of. cbn [filter]. destruct (top1_pass ev); cbn [length]; lia.
Qed.

Lemma nan_rows_cons (v : vec) (vecs : list vec) :
  nan_rows (v :: vecs)
  = ((if np_isnan_any v then 1 else 0) + nan_rows vecs)%Z.
Proof.
  unfold nan_rows. cbn [filter]. destruct (np_isnan_any v); cbn [length]; lia.
Qed.

Lemma total_of_nan_rows (vecs : list vec) :
  total_of vecs = (Z.of_nat (length vecs) - nan_rows vecs)%Z.
Proof.
  unfold total_of, nan_rows, has_no_nan.
  induction vecs as [|v vecs IH]; [reflexivity|].
  cbn [filter]. destruct (np_isnan_any v); cbn [negb length]; lia.
Qed.

Lemma total_of_filter (vecs : list vec) :
  Z.of_nat (length (filter has_no_nan vecs)) = total_of vecs.
Proof. reflexivity. Qed.

Section ValidatorFacts.

Variable S : Type.
Variable dataset : LanceDataset S.
Variable column : string.
Variable refine_factor : Z.

Local Abbreviation run_loop := (loop dataset column refine_factor).
Local Abbreviation query_for := (fun v => query column v refine_factor).

Lemma loop_step_nan (v : vec) (rest : list vec) (passes total : Z) :
  np_isnan_any v = true ->
  run_loop (v :: rest) passes total = run_loop rest passes (total - 1)%Z.
Proof. intros H. simpl. now rewrite H. Qed.

Lemma loop_step_query (v : vec) (rest : list vec) (passes total : Z) (st : S) :
  np_isnan_any v = false ->
  run_loop (v :: rest) passes total st
  = match to_table_nearest dataset (query_for v) st with
    | (inl e, s1) => (inl e, s1, [Ev_nearest (query_for v) (inl e)])
    | (inr [], s1) => (inl IndexError, s1, [Ev_nearest (query_for v) (inr [])])
    | (inr (distance :: more), s1) =>
        prepend [Ev_nearest (query_for v) (inr (distance :: more))]
                (run_loop rest
                   (passes + (if float_lt (float_abs distance) epsilon
                              then 1 else 0))%Z
                   total s1)
    end.
Proof.
  intros H. simpl. rewrite H. unfold bind, call, lift.
  destruct (to_table_nearest dataset (query column v refine_factor) st)
    as [[e | [| distance more]] s1]; try reflexivity.
  unfold getitem0, ok. cbv iota beta.
  destruct (loop dataset column refine_factor rest _ total s1) as [[r s2] t2].
  reflexivity.
Qed.

(** The loop on all rows is the loop on the rows without NaN, started with
    the total already lowered by the number of NaN rows. *)
Lemma loop_filter (vecs : list vec) :
  forall (passes total : Z) (st : S),
    run_loop vecs passes total st
    = run_loop (filter has_no_nan vecs) passes (total - nan_rows vecs)%Z st.
Proof.
  induction vecs as [|v vecs IH]; intros passes total st.
  - simpl. unfold nan_rows. simpl. now rewrite Z.sub_0_r.
  - rewrite nan_rows_cons. cbn [filter].
    assert (Hv : has_no_nan v = negb (np_isnan_any v)) by reflexivity.
    rewrite !Hv. clear Hv.
    destruct (np_isnan_any v) eqn:E; cbn [negb].
    + rewrite (loop_step_nan _ _ _ _ E), IH. f_equal. lia.
    + rewrite !(loop_step_query _ _ _ _ _ E).
      destruct (to_table_nearest dataset (query column v refine_factor) st)
        as [[e | [| distance more]] s1]; try reflexivity.
      rewrite IH. reflexivity.
Qed.

(** What one run of the loop leaves behind. *)
Lemma loop_run (vecs : list vec) :
  forall (passes total : Z) (st : S),
    let r := run_loop vecs passes total st in
    (exists rest : list Nearest,
        map query_for (filter has_no_nan vecs)
        = nearest_queries (trace_of r) ++ rest) /\
    (forallb answered (trace_of r) = true ->
     outcome r = ok ((passes + passes_of (trace_of r))%Z,
                     (total - nan_rows vecs)%Z) /\
     nearest_queries (trace_of r) = map query_for (filter has_no_nan vecs)) /\
    (forall q : Nearest,
        In (Ev_nearest q (inr [])) (trace_of r) -> outcome r = raise IndexError) /\
    (forall counters : Z * Z,
        outcome r = ok counters -> forallb answered (trace_of r) = true).
Proof.
  induction vecs as [|v vecs IH]; intros passes total st.
  - simpl. split; [exists []; reflexivity|]. split; [|split].
    + intros _. unfold passes_of, nan_rows. simpl.
      now rewrite Z.add_0_r, Z.sub_0_r.
    + intros q [].
    + reflexivity.
  - cbv zeta. rewrite nan_rows_cons. cbn [filter].
    assert (Hv : has_no_nan v = negb (np_isnan_any v)) by reflexivity.
    rewrite !Hv. clear Hv.
    destruct (np_isnan_any v) eqn:E; cbn [negb].
    + rewrite (loop_step_nan _ _ _ _ E).
      destruct (IH passes (total - 1)%Z st) as [H1 [H2 H3]].
      split; [exact H1|]. split; [|exact H3].
      intros Hans. destruct (H2 Hans) as [Ho Hq]. split; [|exact Hq].
      rewrite Ho. do 2 f_equal. lia.
    + rewrite (loop_step_query _ _ _ _ _ E).
      destruct (to_table_nearest dataset (query column v refine_factor) st)
        as [[e | [| distance more]] s1].
      * simpl. split; [eexists; reflexivity|]. split; [discriminate|].
        split; [|discriminate].
        intros q [H | []]. discriminate.
      * simpl. split; [eexists; reflexivity|]. split; [discriminate|].
        split; [|discriminate].
        intros q _. reflexivity.
      * match goal with
        | |- context [run_loop vecs ?p total s1] =>
            specialize (IH p total s1);
              destruct (run_loop vecs p total s1) as [[r s2] tr]
        end.
        unfold prepend, outcome, trace_of in *. cbn [fst snd app] in *.
        cbn [nearest_queries flat_map forallb answered andb app In map] in *.
        fold (nearest_queries tr) in *.
        destruct IH as [[rest H1] [H2 [H3 H4]]].
        split; [exists rest; now rewrite H1|]. split; [|split].
        -- intros Hans. destruct (H2 Hans) as [Ho Hq]. split.
           ++ rewrite Ho, passes_of_cons. cbn [top1_pass].
              do 2 f_equal; lia.
           ++ now rewrite Hq.
        -- intros q [H | H]; [discriminate | exact (H3 q H)].
        -- exact H4.
Qed.


(** *** From the loop to the whole call *)

Lemma validate_rows_run (pass_threshold : pyfloat) (vecs : list vec) (st : S) :
  let l := run_loop vecs 0 (Z.of_nat (length vecs)) st in
  trace_of (validate_rows dataset column refine_factor pass_threshold vecs st)
  = trace_of l /\
  outcome (validate_rows dataset column refine_factor pass_threshold vecs st)
  = match outcome l with
    | inl e => raise e
    | inr counters =>
        threshold_check (fst counters) (snd counters) pass_threshold
    end.
Proof.
  unfold validate_rows, bind, lift, outcome, trace_of.
  destruct (loop dataset column refine_factor vecs 0 _ st)
    as [[[e | counters] s1] t1]; simpl; [split; reflexivity|].
  now rewrite app_nil_r.
Qed.

Lemma validate_vector_index_rows (sample_size : option Z)
      (pass_threshold : pyfloat) (st st1 : S) (vecs : list vec)
      (before : list Event) :
  materialized dataset sample_size column st vecs st1 before ->
  validate_vector_index dataset column refine_factor sample_size
    pass_threshold st
  = prepend before
      (validate_rows dataset column refine_factor pass_threshold vecs st1).
Proof.
  intros [data [Hm Hc]].
  unfold ok in Hm, Hc.
  unfold validate_vector_index, bind at 1. rewrite Hm. cbv beta iota.
  unfold bind, lift at 1. rewrite Hc.
  destruct (validate_rows dataset column refine_factor pass_threshold vecs st1)
    as [[r s2] t2].
  reflexivity.
Qed.

Lemma materialize_trace (sample_size : option Z) (st : S) :
  let m := materialize dataset sample_size st in
  nearest_queries (trace_of m) = [] /\
  forallb answered (trace_of m) = true /\
  passes_of (trace_of m) = 0%Z /\
  forall q answer, ~ In (Ev_nearest q answer) (trace_of m).
Proof.
  unfold materialize, call, trace_of.
  destruct sample_size as [n|];
    [destruct (sample dataset n st) as [r s1]
    |destruct (to_table dataset st) as [r s1]];
    simpl; (repeat split; try reflexivity);
    intros q answer [H | []]; discriminate.
Qed.

Lemma materialized_trace (sample_size : option Z) (st st1 : S)
      (vecs : list vec) (before : list Event) :
  materialized dataset sample_size column st vecs st1 before ->
  nearest_queries before = [] /\
  forallb answered before = true /\
  passes_of before = 0%Z /\
  forall q answer, ~ In (Ev_nearest q answer) before.
Proof.
  intros [data [Hm _]].
  pose proof (materialize_trace sample_size st) as H.
  cbv zeta in H. rewrite Hm in H. exact H.
Qed.

Lemma nearest_queries_app (t1 t2 : list Event) :
  nearest_queries (t1 ++ t2) = nearest_queries t1 ++ nearest_queries t2.
Proof. unfold nearest_queries. apply flat_map_app. Qed.

Lemma passes_of_app (t1 t2 : list Event) :
  passes_of (t1 ++ t2) = (passes_of t1 + passes_of t2)%Z.
Proof.
  unfold passes_of. rewrite filter_app, length_app. lia.
Qed.

(** The whole call, once the rows are at hand, seen through the loop. *)
Lemma validate_vector_index_run (sample_size : option Z)
      (pass_threshold : pyfloat) (st st1 : S) (vecs : list vec)
      (before : list Event) :
  materialized dataset sample_size column st vecs st1 before ->
  let r := validate_vector_index dataset column refine_factor sample_size
             pass_threshold st in
  let l := run_loop vecs 0 (Z.of_nat (length vecs)) st1 in
  trace_of r = before ++ trace_of l /\
  nearest_queries (trace_of r) = nearest_queries (trace_of l) /\
  forallb answered (trace_of r) = forallb answered (trace_of l) /\
  passes_of (trace_of r) = passes_of (trace_of l) /\
  outcome r = match outcome l with
              | inl e => raise e
              | inr counters =>
                  threshold_check (fst counters) (snd counters) pass_threshold
              end.
Proof.
  intros Hm. cbv zeta.
  rewrite (validate_vector_index_rows _ pass_threshold _ _ _ _ Hm).
  destruct (validate_rows_run pass_threshold vecs st1) as [Ht Ho].
  destruct (materialized_trace _ _ _ _ _ Hm) as [Hq [Ha [Hp _]]].
  destruct (validate_rows dataset column refine_factor pass_threshold vecs st1)
    as [[r s2] t2].
  unfold prepend, trace_of, outcome in *. cbn [fst snd] in *. subst t2.
  split; [reflexivity|].
  rewrite nearest_queries_app, forallb_app, passes_of_app, Hq, Ha, Hp, Ho.
  repeat split.
Qed.


Lemma filter_no_nan_is_queried (q : Nearest) (vecs : list vec) :
  In q (map query_for (filter has_no_nan vecs)) ->
  np_isnan_any (nearest_q q) = false.
Proof.
  intros H. apply in_map_iff in H. destruct H as [v [<- Hv]].
  apply filter_In in Hv. destruct Hv as [_ Hv]. simpl.
  unfold has_no_nan in Hv. now apply negb_true_iff in Hv.
Qed.

Lemma some_row_counts (vecs : list vec) :
  existsb has_no_nan vecs = true -> (0 < total_of vecs)%Z.
Proof.
  unfold total_of. induction vecs as [|v vecs IH]; simpl; [discriminate|].
  destruct (has_no_nan v); simpl; [lia | exact IH].
Qed.

Lemma sanity_message (passes total : Z) :
  let msg := (msg_sanity ++ str_int passes ++ "/" ++ str_int total
              ++ " passed")%string in
  error_kind (ValueError msg) = Some AccuracyError /\
  contains msg (str_int passes) /\ contains msg (str_int total).
Proof.
  cbv zeta. split; [|split].
  - unfold error_kind. rewrite (prefix_app msg_sanity).
    destruct (str_int passes); reflexivity.
  - apply contains_app_r, contains_here.
  - apply contains_app_r, contains_app_r, (contains_app_r "/"), contains_here.
Qed.

Lemma validate_filter (sample_size : option Z) (pass_threshold : pyfloat)
      (st st1 : S) (vecs : list vec) (before : list Event) :
  materialized dataset sample_size column st vecs st1 before ->
  validate_vector_index dataset column refine_factor sample_size
    pass_threshold st
  = prepend before
      (validate_rows dataset column refine_factor pass_threshold
         (filter has_no_nan vecs) st1).
Proof.
  intros Hm.
  rewrite (validate_vector_index_rows _ pass_threshold _ _ _ _ Hm).
  f_equal. unfold validate_rows, bind.
  rewrite loop_filter, <- total_of_nan_rows, total_of_filter. reflexivity.
Qed.

Lemma answered_run_outcome (sample_size : option Z) (pass_threshold : pyfloat)
      (st st1 : S) (vecs : list vec) (before : list Event) :
  materialized dataset sample_size column st vecs st1 before ->
  let r := validate_vector_index dataset column refine_factor sample_size
             pass_threshold st in
  forallb answered (trace_of r) = true ->
  nearest_queries (trace_of r) = map query_for (filter has_no_nan vecs) /\
  outcome r = threshold_check (passes_of (trace_of r)) (total_of vecs)
                              pass_threshold.
Proof.
  intros Hm. cbv zeta.
  destruct (validate_vector_index_run _ pass_threshold _ _ _ _ Hm)
    as [_ [Hq [Ha [Hp Ho]]]].
  destruct (loop_run vecs 0 (Z.of_nat (length vecs)) st1) as [_ [H2 _]].
  rewrite Hq, Ha, Hp, Ho.
  intros Hans. destruct (H2 Hans) as [Hl Hqs]. split; [exact Hqs|].
  rewrite Hl. unfold ok. cbn [fst snd].
  now rewrite Z.add_0_l, total_of_nan_rows.
Qed.

(** C3. Rows with a NaN element take no part in the run: the call behaves
    as it does on the remaining rows alone, no query ever carries a vector
    with a NaN, and when the loop ends the two counters are the number of
    passing answers and the number of rows without NaN. *)
Theorem nan_rows_excluded (sample_size : option Z) (pass_threshold : pyfloat)
        (st st1 : S) (vecs : list vec) (before : list Event) :
  materialized dataset sample_size column st vecs st1 before ->
  validate_vector_index dataset column refine_factor sample_size
    pass_threshold st
  = prepend before
      (validate_rows dataset column refine_factor pass_threshold
         (filter has_no_nan vecs) st1) /\
  Forall (fun q => np_isnan_any (nearest_q q) = false)
         (nearest_queries
            (trace_of (validate_vector_index dataset column refine_factor
                         sample_size pass_threshold st))) /\
  (forall (counters : Z * Z) (s2 : S) (trace : list Event),
      loop dataset column refine_factor vecs 0 (Z.of_nat (length vecs)) st1
      = (ok counters, s2, trace) ->
      counters = (passes_of trace, total_of vecs)).
Proof.
  intros Hm. split; [|split].
  - exact (validate_filter sample_size pass_threshold st st1 vecs before Hm).
  - destruct (validate_vector_index_run _ pass_threshold _ _ _ _ Hm)
      as [_ [Hq _]].
    rewrite Hq.
    destruct (loop_run vecs 0 (Z.of_nat (length vecs)) st1) as [[rest H] _].
    apply Forall_forall. intros q Hin.
    apply (filter_no_nan_is_queried q vecs). rewrite H.
    apply in_or_app. now left.
  - intros counters s2 trace Hl.
    destruct (loop_run vecs 0 (Z.of_nat (length vecs)) st1)
      as [_ [H2 [_ H4]]].
    rewrite Hl in H2, H4. unfold outcome, trace_of in H2, H4.
    cbn [fst snd] in H2, H4.
    destruct (H2 (H4 counters eq_refl)) as [Ho _].
    unfold ok in Ho. injection Ho as ->.
    now rewrite total_of_nan_rows.
Qed.


(** C2. In a run with at least one row without NaN in which every query
    is answered, passes / total is defined and the call raises
    AccuracyError exactly when it is below the threshold, with a message
    that shows both counts; otherwise, and in particular when the rate
    equals the threshold, it returns None. *)
Theorem threshold_decides (sample_size : option Z) (pass_threshold : pyfloat)
        (st st1 : S) (vecs : list vec) (before : list Event) :
  materialized dataset sample_size column st vecs st1 before ->
  let r := validate_vector_index dataset column refine_factor sample_size
             pass_threshold st in
  forallb answered (trace_of r) = true ->
  existsb has_no_nan vecs = true ->
  exists rate : pyfloat,
    int_truediv (passes_of (trace_of r)) (total_of vecs) = ok rate /\
    (fails_with (outcome r) AccuracyError <->
     float_lt rate pass_threshold = true) /\
    (outcome r = ok tt <-> float_lt rate pass_threshold = false) /\
    (rate = pass_threshold -> outcome r = ok tt) /\
    (forall e : exn,
        outcome r = raise e ->
        exists msg : string,
          e = ValueError msg /\
          contains msg (str_int (passes_of (trace_of r))) /\
          contains msg (str_int (total_of vecs))).
Proof.
  intros Hm r Hans Hrow. subst r.
  destruct (answered_run_outcome sample_size pass_threshold st st1 vecs
              before Hm Hans) as [_ Ho].
  rewrite Ho.
  pose proof (some_row_counts vecs Hrow) as Hpos.
  set (passes := passes_of _). set (total := total_of vecs) in *.
  unfold threshold_check, int_truediv.
  destruct (Z.eqb_spec total 0) as [H0 | _]; [lia|].
  set (rate := SFdiv prec emax (int_operand passes) (int_operand total)).
  exists rate. split; [reflexivity|]. unfold ok, raise. cbv iota beta.
  destruct (sanity_message passes total) as [Hk [Hp Ht]]. cbv zeta in Hk, Hp, Ht.
  destruct (float_lt rate pass_threshold) eqn:E.
  - split; [|split; [|split]].
    + split; [reflexivity|]. intros _. eexists. split; [reflexivity | exact Hk].
    + split; discriminate.
    + intros Heq. rewrite <- Heq, float_lt_irrefl in E. discriminate.
    + intros e He. injection He as <-. eexists. split; [reflexivity|].
      split; assumption.
  - split; [|split; [|split]].
    + split; [|discriminate]. intros [e [He _]]. discriminate.
    + split; reflexivity.
    + reflexivity.
    + intros e He. discriminate.
Qed.

(** C10. A query that comes back with no result ends the call with
    IndexError, which is none of the errors of the taxonomy; the row is not
    counted as a failure. *)
Theorem empty_answer_index_error (sample_size : option Z)
        (pass_threshold : pyfloat) (st : S) (q : Nearest) :
  let r := validate_vector_index dataset column refine_factor sample_size
             pass_threshold st in
  In (Ev_nearest q (inr [])) (trace_of r) ->
  outcome r = raise IndexError /\
  error_kind IndexError = None /\
  ~ fails_with (outcome r) AccuracyError.
Proof.
  intros r Hin.
  assert (Ho : outcome r = raise IndexError).
  { subst r.
    destruct (materialize dataset sample_size st) as [[[e | data] s1] t0] eqn:Hm.
    - exfalso. pose proof (materialize_trace sample_size st) as Ht.
      cbv zeta in Ht. rewrite Hm in Ht. destruct Ht as [_ [_ [_ Ht]]].
      unfold validate_vector_index, bind in Hin. rewrite Hm in Hin.
      exact (Ht _ _ Hin).
    - destruct (column_to_numpy data column) as [e | vecs] eqn:Hc.
      + exfalso. pose proof (materialize_trace sample_size st) as Ht.
        cbv zeta in Ht. rewrite Hm in Ht. destruct Ht as [_ [_ [_ Ht]]].
        unfold validate_vector_index, bind, lift in Hin.
        rewrite Hm, Hc in Hin. unfold trace_of in Hin, Ht. cbn [snd] in Hin, Ht.
        rewrite app_nil_r in Hin. exact (Ht _ _ Hin).
      + assert (Hmat : materialized dataset sample_size column st vecs s1 t0)
          by (exists data; split; assumption).
        destruct (validate_vector_index_run _ pass_threshold _ _ _ _ Hmat)
          as [Ht [_ [_ [_ Hout]]]].
        destruct (materialized_trace _ _ _ _ _ Hmat) as [_ [_ [_ Hno]]].
        rewrite Ht in Hin. apply in_app_or in Hin.
        destruct Hin as [Hin | Hin]; [elim (Hno _ _ Hin)|].
        destruct (loop_run vecs 0 (Z.of_nat (length vecs)) s1)
          as [_ [_ [H3 _]]].
        rewrite Hout, (H3 q Hin). reflexivity. }
  split; [exact Ho|]. split; [reflexivity|].
  rewrite Ho. intros [e [He Hk]]. injection He as <-. discriminate.
Qed.

(** When every row has a NaN (or there is no row at all) the final
    division is 0 / 0. *)
Lemma all_nan_zero_division (sample_size : option Z)
      (pass_threshold : pyfloat) (st st1 : S) (vecs : list vec)
      (before : list Event) :
  materialized dataset sample_size column st vecs st1 before ->
  forallb np_isnan_any vecs = true ->
  outcome (validate_vector_index dataset column refine_factor sample_size
             pass_threshold st)
  = raise ZeroDivisionError.
Proof.
  intros Hm Hall.
  assert (Hf : filter has_no_nan vecs = []).
  { clear Hm. induction vecs as [|v vecs IH]; [reflexivity|].
    simpl in Hall. apply andb_true_iff in Hall. destruct Hall as [Hv Hall].
    simpl. unfold has_no_nan at 1. rewrite Hv. simpl. now apply IH. }
  rewrite (validate_filter sample_size pass_threshold st st1 vecs before Hm).
  rewrite Hf. reflexivity.
Qed.

End ValidatorFacts.

(** *** Sample runs *)

(** Four of five rows pass and the threshold is 0.8 = 4/5: the call
    succeeds. *)
Example boundary_succeeds :
  outcome (validate_vector_index five_rows_dataset "vector" 5 None
             (float_ratio 4 5) 0)
  = ok tt.
Proof. vm_compute. reflexivity. Qed.

(** The same run against a threshold of 1.0 fails and reports 4/5. *)
Example below_threshold_fails :
  outcome (validate_vector_index five_rows_dataset "vector" 5 None
             float_one 0)
  = raise (ValueError "Vector index failed sanity check, only 4/5 passed").
Proof. vm_compute. reflexivity. Qed.

(** Six of ten rows pass against a threshold of 0.8. *)
Example six_of_ten_fails :
  outcome (validate_vector_index ten_rows_dataset "vector" 5 None
             (float_ratio 8 10) 0)
  = raise (ValueError "Vector index failed sanity check, only 6/10 passed").
Proof. vm_compute. reflexivity. Qed.

(** Ten rows, one with a NaN, the other nine pass: success at threshold
    1.0, after nine queries. *)
Example nan_row_does_not_count :
  outcome (validate_vector_index nine_good_dataset "vector" 5 None
             float_one 0) = ok tt /\
  length (nearest_queries
            (trace_of (validate_vector_index nine_good_dataset "vector" 5
                         None float_one 0))) = 9.
Proof. vm_compute. split; reflexivity. Qed.

(** Sampling three rows asks the dataset for a sample, not for the table. *)
Example sample_is_drawn :
  trace_of (materialize five_rows_dataset (Some 3%Z) 0) = [Ev_sample 3].
Proof. reflexivity. Qed.

(** C1. With every row holding a NaN the call ends in ZeroDivisionError,
    which is not AccuracyError. *)
Theorem all_nan_rows_zero_division :
  forallb np_isnan_any all_nan_rows = true /\
  outcome (validate_vector_index all_nan_dataset "vector" 5 None float_one 0)
  = raise ZeroDivisionError /\
  ~ fails_with
      (outcome (validate_vector_index all_nan_dataset "vector" 5 None
                  float_one 0))
      AccuracyError.
Proof.
  split; [reflexivity|].
  assert (H : outcome (validate_vector_index all_nan_dataset "vector" 5 None
                         float_one 0) = raise ZeroDivisionError).
  { apply (all_nan_zero_division nat all_nan_dataset "vector" 5 None float_one
             0 0 all_nan_rows [Ev_to_table]).
    - eexists. split; reflexivity.
    - reflexivity. }
  split; [exact H|].
  rewrite H. intros [e [He Hk]]. injection He as <-. discriminate.
Qed.

Lemma threshold_decides_witness :
  exists rate : pyfloat,
    int_truediv
      (passes_of (trace_of (validate_vector_index five_rows_dataset "vector"
                              5 None (float_ratio 4 5) 0)))
      (total_of five_rows) = ok rate /\
    (fails_with (outcome (validate_vector_index five_rows_dataset "vector"
                            5 None (float_ratio 4 5) 0)) AccuracyError <->
     float_lt rate (float_ratio 4 5) = true) /\
    (outcome (validate_vector_index five_rows_dataset "vector"
                5 None (float_ratio 4 5) 0) = ok tt <->
     float_lt rate (float_ratio 4 5) = false) /\
    (rate = float_ratio 4 5 ->
     outcome (validate_vector_index five_rows_dataset "vector"
                5 None (float_ratio 4 5) 0) = ok tt) /\
    (forall e : exn,
        outcome (validate_vector_index five_rows_dataset "vector"
                   5 None (float_ratio 4 5) 0) = raise e ->
        exists msg : string,
          e = ValueError msg /\
          contains msg
            (str_int (passes_of
                        (trace_of (validate_vector_index five_rows_dataset
                                     "vector" 5 None (float_ratio 4 5) 0)))) /\
          contains msg (str_int (total_of five_rows))).
Proof.
  apply (threshold_decides nat five_rows_dataset "vector" 5 None (float_ratio 4 5)
           0 0 five_rows [Ev_to_table]).
  - eexists. split; reflexivity.
  - vm_compute. reflexivity.
  - vm_compute. reflexivity.
Defined.

Lemma nan_rows_excluded_witness :
  validate_vector_index rows_with_nan_dataset "vector" 5 None float_one 0
  = prepend [Ev_to_table]
      (validate_rows rows_with_nan_dataset "vector" 5 float_one
         (filter has_no_nan rows_with_nan) 0) /\
  Forall (fun q => np_isnan_any (nearest_q q) = false)
         (nearest_queries
            (trace_of (validate_vector_index rows_with_nan_dataset "vector" 5
                         None float_one 0))) /\
  (forall (counters : Z * Z) (s2 : nat) (trace : list Event),
      loop rows_with_nan_dataset "vector" 5 rows_with_nan 0
           (Z.of_nat (length rows_with_nan)) 0
      = (ok counters, s2, trace) ->
      counters = (passes_of trace, total_of rows_with_nan)).
Proof.
  apply (nan_rows_excluded nat rows_with_nan_dataset "vector" 5 None float_one
           0 0 rows_with_nan [Ev_to_table]).
  eexists. split; reflexivity.
Defined.


(** A dataset whose index returns an empty result for the only row. *)
Lemma empty_answer_index_error_witness :
  outcome (validate_vector_index empty_index_dataset "vector" 5 None
             float_one 0)
  = raise IndexError /\
  error_kind IndexError = None /\
  ~ fails_with
      (outcome (validate_vector_index empty_index_dataset "vector" 5 None
                  float_one 0))
      AccuracyError.
Proof.
  apply (empty_answer_index_error nat empty_index_dataset "vector" 5 None
           float_one 0 (query "vector" (row_of 1) 5)).
  vm_compute. right. left. reflexivity.
Defined.

(** * Further properties *)

(** ** Binary64 division of ints *)

Lemma div_eucl_div_mod (a b : Z) : Z.div_eucl a b = ((a / b)%Z, (a mod b)%Z).
Proof.
  unfold Z.div, Z.modulo. now destruct (Z.div_eucl a b).
Qed.

Lemma new_location_exact (steps : Z) : new_location steps 0 = loc_Exact.
Proof. unfold new_location. now destruct (Z.even steps). Qed.

Lemma shiftl_pos (p s : positive) :
  Z.shiftl (Zpos p) (Zpos s) = Zpos (Pos.iter xO p s).
Proof.
  simpl. symmetry.
  apply (Pos.iter_swap_gen _ _ Zpos xO (Z.mul 2)). reflexivity.
Qed.

Lemma digits2_iter_xO (p s : positive) :
  Zpos (digits2_pos (Pos.iter xO p s)) = (Zpos (digits2_pos p) + Zpos s)%Z.
Proof.
  induction s as [|s IH] using Pos.peano_ind.
  - simpl. lia.
  - rewrite Pos.iter_succ. simpl digits2_pos. lia.
Qed.

Lemma iter_xO_value (p s : positive) :
  Zpos (Pos.iter xO p s) = (Zpos p * 2 ^ Zpos s)%Z.
Proof.
  rewrite <- shiftl_pos. apply Z.shiftl_mul_pow2. lia.
Qed.

(** Rounding an exact 54-bit mantissa whose last bit is 0 drops that bit. *)
Lemma round_even_54 (sx : bool) (q : positive) (e : Z) :
  Zpos (digits2_pos q) = 53%Z -> (-1074 <= e <= 971)%Z ->
  binary_round_aux prec emax sx (Zpos (xO q)) (e - 1) loc_Exact
  = S754_finite sx q e.
Proof.
  intros Hd He. unfold binary_round_aux, shr_fexp.
  assert (H1 : (fexp prec emax (Zdigits2 (Zpos (xO q)) + (e - 1)) - (e - 1)
                = 1)%Z).
  { unfold fexp, emin, prec, emax. simpl Zdigits2. lia. }
  rewrite H1. simpl shr. cbv beta iota.
  replace (e - 1 + 1)%Z with e by lia. simpl round_nearest_even.
  assert (H2 : (fexp prec emax (Zdigits2 (Zpos q) + e) - e = 0)%Z).
  { unfold fexp, emin, prec, emax. simpl Zdigits2. lia. }
  rewrite H2. simpl.
  destruct (Z.leb_spec e 971) as [_ | H]; [reflexivity | lia].
Qed.

Lemma digits2_lower (p : positive) :
  (2 ^ (Zpos (digits2_pos p) - 1) <= Zpos p)%Z.
Proof.
  induction p as [p IH | p IH |]; simpl digits2_pos;
    try (rewrite Pos2Z.inj_succ;
         replace (Z.succ (Zpos (digits2_pos p)) - 1)%Z
           with (Z.succ (Zpos (digits2_pos p) - 1)) by lia;
         rewrite Z.pow_succ_r by lia).
  - rewrite (Pos2Z.inj_xI p). generalize dependent (2 ^ (Zpos (digits2_pos p) - 1))%Z.
    intros x Hx. lia.
  - rewrite (Pos2Z.inj_xO p). generalize dependent (2 ^ (Zpos (digits2_pos p) - 1))%Z.
    intros x Hx. lia.
  - apply Z.le_refl.
Qed.

Lemma digits2_below (p : positive) (n : Z) :
  (0 <= n)%Z -> (Zpos p < 2 ^ n)%Z -> (Zpos (digits2_pos p) <= n)%Z.
Proof.
  intros Hn Hp.
  destruct (Z.le_gt_cases (Zpos (digits2_pos p)) n) as [H | H]; [exact H|].
  pose proof (digits2_lower p) as Hl.
  assert (Hm : (2 ^ n <= 2 ^ (Zpos (digits2_pos p) - 1))%Z)
    by (apply Z.pow_le_mono_r; lia).
  generalize dependent (2 ^ n)%Z.
  generalize dependent (2 ^ (Zpos (digits2_pos p) - 1))%Z. intros. lia.
Qed.

(** Dividing an int below 2^53 by 1: the quotient needs no rounding. *)
Lemma div_core_by_one (p s : positive) :
  Zpos s = (54 - Zpos (digits2_pos p))%Z ->
  SFdiv_core_binary prec emax (Zpos p) 0 1 0
  = (Zpos (Pos.iter xO p s), (- Zpos s)%Z, loc_Exact).
Proof.
  intros Hs. unfold SFdiv_core_binary. cbv zeta.
  assert (He : Z.min (fexp prec emax (Zdigits2 (Zpos p) + 0 - (Zdigits2 1 + 0)))
                     (0 - 0) = (- Zpos s)%Z).
  { unfold fexp, emin, prec, emax. simpl Zdigits2. lia. }
  rewrite He. replace (0 - 0 - - Zpos s)%Z with (Zpos s) by lia.
  rewrite shiftl_pos, div_eucl_div_mod, Z.div_1_r, Z.mod_1_r.
  now rewrite new_location_exact.
Qed.

(** An int below 2^53 in absolute value divided by 1 is that int, exactly:
    the mantissa is the int shifted up to 53 bits. *)
Lemma truediv_by_one (sx : bool) (p : positive) :
  (Zpos p < 2 ^ 53)%Z ->
  exists (q : positive) (k : Z),
    SFdiv prec emax (S754_finite sx p 0) (S754_finite false 1 0)
    = S754_finite sx q (- k) /\
    (0 <= k <= 52)%Z /\ Zpos q = (Zpos p * 2 ^ k)%Z.
Proof.
  intros Hp.
  pose proof (digits2_below p 53 ltac:(lia) Hp) as Hd.
  assert (H1 : (1 <= Zpos (digits2_pos p))%Z) by lia.
  destruct (Z.eq_dec (Zpos (digits2_pos p)) 53) as [E | E].
  - (* 53 bits already *)
    exists p, 0%Z. split; [|split; [lia | simpl; lia]].
    unfold SFdiv. rewrite (div_core_by_one p 1) by lia.
    rewrite xorb_false_r. simpl Pos.iter.
    exact (round_even_54 sx p 0 E ltac:(lia)).
  - assert (Hk : exists k : positive,
               Zpos k = (53 - Zpos (digits2_pos p))%Z).
    { destruct (53 - Zpos (digits2_pos p))%Z as [|k|k] eqn:Ek; try lia.
      now exists k. }
    destruct Hk as [k Hk].
    exists (Pos.iter xO p k), (Zpos k). split; [|split].
    + unfold SFdiv. rewrite (div_core_by_one p (Pos.succ k)) by lia.
      rewrite xorb_false_r, Pos.iter_succ.
      replace (- Zpos (Pos.succ k))%Z with (- Zpos k - 1)%Z by lia.
      apply (round_even_54 sx (Pos.iter xO p k) (- Zpos k)); [|lia].
      rewrite digits2_iter_xO. lia.
    + lia.
    + apply iter_xO_value.
Qed.

Lemma float_round_exact (sx : bool) (p q : positive) (k : Z) :
  (0 <= k)%Z -> Zpos q = (Zpos p * 2 ^ k)%Z ->
  float_round (S754_finite sx q (- k))
  = inr (if sx then Zneg p else Zpos p).
Proof.
  intros Hk Hq. destruct k as [|k|k]; [| |lia].
  - simpl. f_equal. rewrite Z.mul_1_r in Hq.
    injection Hq as ->. rewrite Pos.mul_1_r. reflexivity.
  - change (- Zpos k)%Z with (Zneg k). unfold float_round, round_half_even.
    rewrite Hq, div_eucl_div_mod.
    change (Z.pow_pos 2 k) with (2 ^ Zpos k)%Z.
    assert (Hpow : (0 < 2 ^ Zpos k)%Z) by (apply Z.pow_pos_nonneg; lia).
    rewrite Z.div_mul, Z.mod_mul by lia.
    replace (2 * 0 ?= 2 ^ Zpos k)%Z with Lt
      by (symmetry; apply Z.compare_lt_iff; lia).
    reflexivity.
Qed.

(** ** td_to_micros *)

(** X14. For a duration of less than 2^53 microseconds in absolute value
    (about 285 years) [td_to_micros] returns its exact number of
    microseconds: the float division by one microsecond and the rounding
    lose nothing. *)
Theorem td_to_micros_exact (td : timedelta) :
  (Z.abs (to_microseconds td) < 2 ^ 53)%Z ->
  td_to_micros td = inr (to_microseconds td).
Proof.
  intros Hb. unfold td_to_micros, timedelta_truediv, int_truediv.
  change (to_microseconds one_microsecond) with 1%Z. simpl Z.eqb. cbv iota.
  unfold ok. destruct (to_microseconds td) as [|p|p].
  - reflexivity.
  - destruct (truediv_by_one false p ltac:(lia)) as [q [k [Hdiv [Hk Hq]]]].
    simpl int_operand. rewrite Hdiv.
    exact (float_round_exact false p q k ltac:(lia) Hq).
  - destruct (truediv_by_one true p ltac:(lia)) as [q [k [Hdiv [Hk Hq]]]].
    simpl int_operand. rewrite Hdiv.
    exact (float_round_exact true p q k ltac:(lia) Hq).
Qed.

(** ** More on the index validator *)

Lemma truediv_self (p : positive) :
  SFdiv prec emax (S754_finite false p 0) (S754_finite false p 0) = float_one.
Proof.
  unfold SFdiv, SFdiv_core_binary. cbv zeta.
  replace (Zdigits2 (Zpos p) + 0 - (Zdigits2 (Zpos p) + 0))%Z with 0%Z by lia.
  change (Z.min (fexp prec emax 0) (0 - 0)) with (-53)%Z.
  change (0 - 0 - -53)%Z with 53%Z. cbv iota.
  rewrite Z.shiftl_mul_pow2, div_eucl_div_mod by lia.
  rewrite Z.mul_comm, Z.div_mul, Z.mod_mul, new_location_exact by lia.
  vm_compute. reflexivity.
Qed.

Lemma round_sign (sx : bool) (mx ex : Z) (lx : location) :
  binary_round_aux prec emax sx mx ex lx = S754_nan \/
  binary_round_aux prec emax sx mx ex lx = S754_zero sx \/
  binary_round_aux prec emax sx mx ex lx = S754_infinity sx \/
  exists m e, binary_round_aux prec emax sx mx ex lx = S754_finite sx m e.
Proof.
  unfold binary_round_aux.
  destruct (shr_fexp prec emax mx ex lx) as [mrs1 e1].
  destruct (shr_fexp prec emax _ e1 loc_Exact) as [mrs2 e2].
  destruct (shr_m mrs2) as [|m|m]; [tauto | | tauto].
  destruct (e2 <=? emax - prec)%Z; [|tauto].
  right. right. right. now exists m, e2.
Qed.

(** The quotient of a count by a positive count is not negative. *)
Lemma truediv_counts_not_negative (a b : Z) :
  (0 <= a)%Z -> (0 < b)%Z ->
  not_negative (SFdiv prec emax (int_operand a) (int_operand b)) = true.
Proof.
  intros Ha Hb. destruct a as [|p|p]; [| |lia]; destruct b as [|q|q]; try lia.
  - reflexivity.
  - simpl int_operand. unfold SFdiv.
    destruct (SFdiv_core_binary prec emax (Zpos p) 0 (Zpos q) 0) as [[mz ez] lz].
    simpl xorb.
    destruct (round_sign false mz ez lz) as [H | [H | [H | [m [e H]]]]];
      rewrite H; reflexivity.
Qed.

Lemma lt_not_negative (x threshold : pyfloat) :
  not_negative x = true ->
  float_lt float_zero threshold = false ->
  float_lt x threshold = false.
Proof.
  unfold float_lt, SFltb.
  destruct x as [[] | [] | | [] m e], threshold as [[] | [] | | [] m' e'];
    simpl; intros; try reflexivity; discriminate.
Qed.

Lemma passes_of_bounds (trace : list Event) :
  (0 <= passes_of trace <= Z.of_nat (length (nearest_queries trace)))%Z.
Proof.
  unfold passes_of.
  induction trace as [|ev trace IH]; [simpl; lia|].
  cbn [filter nearest_queries flat_map]. fold (nearest_queries trace).
  destruct ev as [| n | q [e | [|d more]]]; cbn [top1_pass app length];
    try lia.
  destruct (float_lt (float_abs d) epsilon); cbn [length]; lia.
Qed.

Lemma all_passed (trace : list Event) :
  forallb query_passed trace = true ->
  forallb answered trace = true /\
  passes_of trace = Z.of_nat (length (nearest_queries trace)).
Proof.
  unfold passes_of.
  induction trace as [|ev trace IH]; [now split|].
  cbn [forallb filter nearest_queries flat_map]. fold (nearest_queries trace).
  intros H. apply andb_true_iff in H. destruct H as [Hev Htr].
  destruct (IH Htr) as [Ha Hp].
  destruct ev as [| n | q [e | [|d more]]]; cbn [query_passed top1_pass] in Hev;
    try discriminate; cbn [answered andb top1_pass app length];
    try (split; [exact Ha | lia]).
  rewrite Hev. cbn [length]. split; [exact Ha | lia].
Qed.

Lemma none_passed (trace : list Event) :
  forallb (fun ev => negb (top1_pass ev)) trace = true ->
  passes_of trace = 0%Z.
Proof.
  unfold passes_of.
  induction trace as [|ev trace IH]; [reflexivity|].
  cbn [forallb filter]. intros H. apply andb_true_iff in H.
  destruct H as [Hev Htr]. apply negb_true_iff in Hev. rewrite Hev.
  now apply IH.
Qed.

Section ValidatorMore.

Variable S : Type.
Variable dataset : LanceDataset S.
Variable column : string.
Variable refine_factor : Z.

Local Abbreviation run_loop := (loop dataset column refine_factor).

Lemma loop_only_queries (vecs : list vec) :
  forall (passes total : Z) (st : S),
    forallb is_query (trace_of (run_loop vecs passes total st)) = true.
Proof.
  induction vecs as [|v vecs IH]; intros passes total st; [reflexivity|].
  destruct (np_isnan_any v) eqn:E.
  - rewrite (loop_step_nan S dataset column refine_factor v vecs _ _ E).
    apply IH.
  - rewrite (loop_step_query S dataset column refine_factor v vecs _ _ st E).
    destruct (to_table_nearest dataset (query column v refine_factor) st)
      as [[e | [| distance more]] s1]; try reflexivity.
    match goal with
    | |- context [run_loop vecs ?p total s1] =>
        specialize (IH p total s1);
          destruct (run_loop vecs p total s1) as [[r s2] tr]
    end.
    exact IH.
Qed.

(** A query that fails or comes back empty is the last event of the loop,
    and decides its outcome. *)
Lemma loop_stops_at_failure (vecs : list vec) :
  forall (passes total : Z) (st : S) (ev : Event),
    let r := run_loop vecs passes total st in
    In ev (trace_of r) -> answered ev = false ->
    outcome r = raise (failure_of ev) /\
    exists before : list Event,
      trace_of r = before ++ [ev] /\ forallb answered before = true.
Proof.
  induction vecs as [|v vecs IH]; intros passes total st ev; cbv zeta.
  - intros [].
  - destruct (np_isnan_any v) eqn:E.
    + rewrite (loop_step_nan S dataset column refine_factor v vecs _ _ E).
      apply IH.
    + rewrite (loop_step_query S dataset column refine_factor v vecs _ _ st E).
      destruct (to_table_nearest dataset (query column v refine_factor) st)
        as [[e | [| distance more]] s1].
      * intros [<- | []] _. split; [reflexivity|]. now exists [].
      * intros [<- | []] _. split; [reflexivity|]. now exists [].
      * match goal with
        | |- context [run_loop vecs ?p total s1] =>
            specialize (IH p total s1 ev);
              destruct (run_loop vecs p total s1) as [[r s2] tr]
        end.
        unfold prepend, outcome, trace_of in *. cbn [fst snd app] in *.
        intros [<- | Hin] Hna; [discriminate|].
        destruct (IH Hin Hna) as [Ho [before [Ht Hb]]].
        split; [exact Ho|].
        exists (Ev_nearest (query column v refine_factor)
                           (inr (distance :: more)) :: before).
        split; [rewrite Ht; reflexivity | exact Hb].
Qed.

(** The three ways a call can go. *)
Lemma run_shape (sample_size : option Z) (pass_threshold : pyfloat) (st : S) :
  let r := validate_vector_index dataset column refine_factor sample_size
             pass_threshold st in
  (exists (e : exn) (s1 : S),
      materialize dataset sample_size st
      = (inl e, s1, [materialization sample_size]) /\
      outcome r = raise e /\ trace_of r = [materialization sample_size]) \/
  (exists (data : Table) (s1 : S),
      materialize dataset sample_size st
      = (inr data, s1, [materialization sample_size]) /\
      data column = None /\
      outcome r = raise (KeyError column) /\
      trace_of r = [materialization sample_size]) \/
  (exists (vecs : list vec) (s1 : S),
      materialized dataset sample_size column st vecs s1
        [materialization sample_size] /\
      trace_of r
      = materialization sample_size
          :: trace_of (run_loop vecs 0 (Z.of_nat (length vecs)) s1)).
Proof.
  cbv zeta.
  assert (Hm : exists r0 s1, materialize dataset sample_size st
                             = (r0, s1, [materialization sample_size])).
  { unfold materialize, call, materialization.
    destruct sample_size as [n|];
      [destruct (sample dataset n st) as [r0 s1]
      |destruct (to_table dataset st) as [r0 s1]]; now exists r0, s1. }
  destruct Hm as [[e | data] [s1 Hm]].
  - left. exists e, s1. split; [exact Hm|].
    unfold validate_vector_index, bind. rewrite Hm. now split.
  - destruct (data column) as [vecs|] eqn:Hc.
    + right. right. exists vecs, s1.
      assert (Hmat : materialized dataset sample_size column st vecs s1
                       [materialization sample_size]).
      { exists data. split; [exact Hm|]. unfold column_to_numpy.
        now rewrite Hc. }
      split; [exact Hmat|].
      destruct (validate_vector_index_run S dataset column refine_factor
                  sample_size pass_threshold st s1 vecs _ Hmat) as [Ht _].
      exact Ht.
    + right. left. exists data, s1. split; [exact Hm|]. split; [exact Hc|].
      assert (Hv : validate_vector_index dataset column refine_factor
                     sample_size pass_threshold st
                   = (raise (KeyError column), s1,
                      [materialization sample_size])).
      { unfold validate_vector_index, bind, lift, column_to_numpy.
        rewrite Hm, Hc. reflexivity. }
      rewrite Hv. now split.
Qed.

End ValidatorMore.

Section ValidatorExtras.

Variable S : Type.
Variable dataset : LanceDataset S.
Variable column : string.
Variable refine_factor : Z.

Local Abbreviation validate :=
  (validate_vector_index dataset column refine_factor).

(** X1. When the dataset cannot hand over the table or the sample, its
    exception is the outcome; when the table has no such column, the
    outcome is KeyError for that column.  In both cases no
    nearest-neighbour query is made. *)
Theorem setup_failure_stops_early (sample_size : option Z)
        (pass_threshold : pyfloat) (st : S) :
  (forall (e : exn) (s1 : S) (before : list Event),
      materialize dataset sample_size st = (inl e, s1, before) ->
      outcome (validate sample_size pass_threshold st) = raise e /\
      nearest_queries (trace_of (validate sample_size pass_threshold st))
      = []) /\
  (forall (data : Table) (s1 : S) (before : list Event),
      materialize dataset sample_size st = (inr data, s1, before) ->
      data column = None ->
      outcome (validate sample_size pass_threshold st)
      = raise (KeyError column) /\
      nearest_queries (trace_of (validate sample_size pass_threshold st))
      = []).
Proof.
  pose proof (materialize_trace S dataset sample_size st) as Ht.
  cbv zeta in Ht. split.
  - intros e s1 before Hm. rewrite Hm in Ht. destruct Ht as [Hq _].
    unfold validate_vector_index, bind. rewrite Hm. now split.
  - intros data s1 before Hm Hc. rewrite Hm in Ht. destruct Ht as [Hq _].
    assert (Hv : validate sample_size pass_threshold st
                 = (raise (KeyError column), s1, before ++ [])).
    { unfold validate_vector_index, bind, lift, column_to_numpy.
      rewrite Hm, Hc. reflexivity. }
    rewrite Hv, app_nil_r. now split.
Qed.

(** X2. A query that raises, or comes back empty, ends the call at once:
    it is the last event of the trace, every query before it was answered,
    and the call raises what the query raised (IndexError for an empty
    answer). *)
Theorem failed_query_aborts (sample_size : option Z)
        (pass_threshold : pyfloat) (st : S) (ev : Event) :
  In ev (trace_of (validate sample_size pass_threshold st)) ->
  answered ev = false ->
  outcome (validate sample_size pass_threshold st) = raise (failure_of ev) /\
  exists before : list Event,
    trace_of (validate sample_size pass_threshold st) = before ++ [ev] /\
    forallb answered before = true.
Proof.
  intros Hin Hna.
  destruct (run_shape S dataset column refine_factor sample_size
              pass_threshold st)
    as [[e [s1 [_ [_ Ht]]]] | [[data [s1 [_ [_ [_ Ht]]]]] | [vecs [s1 [Hm Ht]]]]].
  - rewrite Ht in Hin. destruct Hin as [<- | []].
    destruct sample_size; discriminate.
  - rewrite Ht in Hin. destruct Hin as [<- | []].
    destruct sample_size; discriminate.
  - rewrite Ht in Hin |- *. destruct Hin as [<- | Hin];
      [destruct sample_size; discriminate|].
    destruct (loop_stops_at_failure S dataset column refine_factor vecs 0
                (Z.of_nat (length vecs)) s1 ev Hin Hna)
      as [Ho [before [Hl Hb]]].
    destruct (validate_vector_index_run S dataset column refine_factor
                sample_size pass_threshold st s1 vecs _ Hm)
      as [_ [_ [_ [_ Hout]]]].
    split; [rewrite Hout, Ho; reflexivity|].
    exists (materialization sample_size :: before). split.
    + rewrite Hl. reflexivity.
    + cbn [forallb]. rewrite Hb. now destruct sample_size.
Qed.

(** X3. The dataset is asked for the rows once, with [sample] when a
    sample size is given and with [to_table] otherwise; everything after
    that is a nearest-neighbour query. *)
Theorem one_scan_then_queries (sample_size : option Z)
        (pass_threshold : pyfloat) (st : S) :
  exists queries : list Event,
    trace_of (validate sample_size pass_threshold st)
    = materialization sample_size :: queries /\
    forallb is_query queries = true.
Proof.
  destruct (run_shape S dataset column refine_factor sample_size
              pass_threshold st)
    as [[e [s1 [_ [_ Ht]]]] | [[data [s1 [_ [_ [_ Ht]]]]] | [vecs [s1 [Hm Ht]]]]].
  - exists []. now split.
  - exists []. now split.
  - eexists. split; [exact Ht|]. apply loop_only_queries.
Qed.

(** X4. When the loop ends, 0 <= passes <= total <= number of rows, and
    total is the number of queries made. *)
Theorem counters_bounded (vecs : list vec) (st s2 : S) (counters : Z * Z)
        (trace : list Event) :
  loop dataset column refine_factor vecs 0 (Z.of_nat (length vecs)) st
  = (ok counters, s2, trace) ->
  (0 <= fst counters <= snd counters)%Z /\
  (snd counters <= Z.of_nat (length vecs))%Z /\
  snd counters = Z.of_nat (length (nearest_queries trace)).
Proof.
  intros Hl.
  destruct (loop_run S dataset column refine_factor vecs 0
              (Z.of_nat (length vecs)) st) as [_ [H2 [_ H4]]].
  rewrite Hl in H2, H4. unfold outcome, trace_of in H2, H4.
  cbn [fst snd] in H2, H4.
  destruct (H2 (H4 counters eq_refl)) as [Ho Hq].
  unfold ok in Ho. injection Ho as ->. cbn [fst snd].
  pose proof (passes_of_bounds trace) as Hp.
  assert (Hn : (Z.of_nat (length vecs) - nan_rows vecs)%Z
               = Z.of_nat (length (nearest_queries trace))).
  { rewrite Hq, length_map, <- total_of_nan_rows. reflexivity. }
  rewrite Hn. unfold nan_rows in Hn. lia.
Qed.

(** X5. If every query is answered with a top-1 distance within the
    tolerance (and there is a row to query), passes / total is exactly 1.0
    and the call returns None for every threshold that is not above 1.0,
    the default among them. *)
Theorem every_row_passes_succeeds (sample_size : option Z)
        (pass_threshold : pyfloat) (st st1 : S) (vecs : list vec)
        (before : list Event) :
  materialized dataset sample_size column st vecs st1 before ->
  forallb query_passed (trace_of (validate sample_size pass_threshold st))
  = true ->
  existsb has_no_nan vecs = true ->
  int_truediv
    (passes_of (trace_of (validate sample_size pass_threshold st)))
    (total_of vecs) = ok float_one /\
  (float_lt float_one pass_threshold = false ->
   outcome (validate sample_size pass_threshold st) = ok tt).
Proof.
  intros Hm Hall Hrow.
  destruct (all_passed _ Hall) as [Hans Hp].
  destruct (answered_run_outcome S dataset column refine_factor sample_size
              pass_threshold st st1 vecs before Hm Hans) as [Hq Ho].
  pose proof (some_row_counts vecs Hrow) as Hpos.
  assert (Hpt : passes_of (trace_of (validate sample_size pass_threshold st))
                = total_of vecs).
  { rewrite Hp, Hq, length_map. reflexivity. }
  rewrite Ho, Hpt. unfold threshold_check, int_truediv.
  destruct (total_of vecs) as [|p|p]; try lia.
  simpl Z.eqb. cbv iota. simpl int_operand. rewrite truediv_self.
  split; [reflexivity|]. intros Hthr. unfold ok. cbv iota beta.
  now rewrite Hthr.
Qed.

(** X6. If every query is answered but none within the tolerance, the
    call raises the AccuracyError ValueError reporting 0 passes, for every
    threshold above zero. *)
Theorem no_row_passes_fails (sample_size : option Z)
        (pass_threshold : pyfloat) (st st1 : S) (vecs : list vec)
        (before : list Event) :
  materialized dataset sample_size column st vecs st1 before ->
  forallb answered (trace_of (validate sample_size pass_threshold st))
  = true ->
  forallb (fun ev => negb (top1_pass ev))
          (trace_of (validate sample_size pass_threshold st)) = true ->
  existsb has_no_nan vecs = true ->
  float_lt float_zero pass_threshold = true ->
  outcome (validate sample_size pass_threshold st)
  = raise (ValueError (msg_sanity ++ "0/" ++ str_int (total_of vecs)
                       ++ " passed")) /\
  fails_with (outcome (validate sample_size pass_threshold st)) AccuracyError.
Proof.
  intros Hm Hans Hnone Hrow Hthr.
  destruct (answered_run_outcome S dataset column refine_factor sample_size
              pass_threshold st st1 vecs before Hm Hans) as [_ Ho].
  pose proof (some_row_counts vecs Hrow) as Hpos.
  rewrite Ho, (none_passed _ Hnone).
  assert (Hc : threshold_check 0 (total_of vecs) pass_threshold
               = raise (ValueError (msg_sanity ++ "0/"
                                    ++ str_int (total_of vecs) ++ " passed"))).
  { unfold threshold_check, int_truediv.
    destruct (total_of vecs) as [|p|p]; try lia.
    simpl Z.eqb. cbv iota. unfold ok. cbv iota beta.
    change (SFdiv prec emax (int_operand 0) (int_operand (Zpos p)))
      with float_zero.
    rewrite Hthr. reflexivity. }
  rewrite Hc. split; [reflexivity|].
  eexists. split; [reflexivity|].
  destruct (sanity_message 0 (total_of vecs)) as [Hk _]. exact Hk.
Qed.

(** X7. A threshold that is not above zero (zero, a negative number, or
    NaN) switches the check off: a run whose queries are all answered
    returns None whatever the distances were. *)
Theorem nonpositive_threshold_never_fails (sample_size : option Z)
        (pass_threshold : pyfloat) (st st1 : S) (vecs : list vec)
        (before : list Event) :
  materialized dataset sample_size column st vecs st1 before ->
  forallb answered (trace_of (validate sample_size pass_threshold st))
  = true ->
  existsb has_no_nan vecs = true ->
  float_lt float_zero pass_threshold = false ->
  outcome (validate sample_size pass_threshold st) = ok tt.
Proof.
  intros Hm Hans Hrow Hthr.
  destruct (answered_run_outcome S dataset column refine_factor sample_size
              pass_threshold st st1 vecs before Hm Hans) as [_ Ho].
  pose proof (some_row_counts vecs Hrow) as Hpos.
  pose proof (passes_of_bounds
                (trace_of (validate sample_size pass_threshold st))) as Hp.
  rewrite Ho. unfold threshold_check, int_truediv.
  destruct (Z.eqb_spec (total_of vecs) 0) as [H0 | _]; [lia|].
  unfold ok. cbv iota beta.
  rewrite (lt_not_negative _ pass_threshold); [reflexivity | | exact Hthr].
  apply truediv_counts_not_negative; lia.
Qed.

(** X8. With no row to query (an empty table or sample, or NaN in every
    row) the call makes no query and raises ZeroDivisionError. *)
Theorem nothing_to_check_divides_by_zero (sample_size : option Z)
        (pass_threshold : pyfloat) (st st1 : S) (vecs : list vec)
        (before : list Event) :
  materialized dataset sample_size column st vecs st1 before ->
  forallb np_isnan_any vecs = true ->
  validate sample_size pass_threshold st
  = (raise ZeroDivisionError, st1, before).
Proof.
  intros Hm Hall.
  assert (Hf : filter has_no_nan vecs = []).
  { clear Hm. induction vecs as [|v vecs IH]; [reflexivity|].
    simpl in Hall. apply andb_true_iff in Hall. destruct Hall as [Hv Hall].
    simpl. unfold has_no_nan at 1. rewrite Hv. simpl. now apply IH. }
  rewrite (validate_filter S dataset column refine_factor sample_size
             pass_threshold st st1 vecs before Hm), Hf.
  unfold prepend, validate_rows, bind. simpl. now rewrite app_nil_r.
Qed.

End ValidatorExtras.

(** ** More on the metric names and the KMeans class *)

Lemma normalized_in_names (metric_type normalized : string) :
  _normalize_metric_type metric_type = ok normalized ->
  In normalized metric_names.
Proof.
  rewrite normalize_metric_outcome. unfold metric_outcome.
  destruct (String.eqb (lower metric_type) "euclidean").
  - intros H. injection H as <-. simpl. tauto.
  - destruct (str_in (lower metric_type) metric_names) eqn:E; [|discriminate].
    intros H. injection H as <-. now apply str_in_In in E.
Qed.

(** X9. Whatever [_normalize_metric_type] returns is one of l2, dot and
    cosine, and is returned unchanged when normalised again. *)
Theorem metric_normal_form (metric_type normalized : string) :
  _normalize_metric_type metric_type = ok normalized ->
  In normalized metric_names /\
  _normalize_metric_type normalized = ok normalized.
Proof.
  intros H. pose proof (normalized_in_names _ _ H) as E.
  split; [exact E|].
  destruct E as [E | [E | [E | []]]]; rewrite <- E; reflexivity.
Qed.

Lemma DataType_eqb_refl (t : DataType) : DataType_eqb t t = true.
Proof. now destruct t. Qed.

Section KMeansFacts.

Variable _check_for_numpy : PyObject -> bool.
Variable native : Type.
Variable native_centroids :
  native -> result (option FixedSizeListArray) * native.
Variable native_fit : native -> FixedSizeListArray -> result unit * native.
Variable native_predict :
  native -> FixedSizeListArray -> result (list Z) * native.
Variable _KMeans :
  Z -> string -> Z -> option FixedSizeListArray -> result native.

Local Abbreviation normalise :=
  (KMeans._to_fixed_size_list _check_for_numpy).
Local Abbreviation fit :=
  (KMeansMethods.fit _check_for_numpy native_fit).
Local Abbreviation predict :=
  (KMeansMethods.predict _check_for_numpy native_predict).
Local Abbreviation centroids := (KMeansMethods.centroids native_centroids).

Lemma normalised_is_float32 (data : PyObject) (out : FixedSizeListArray) :
  normalise data = ok out -> value_type out = float32.
Proof.
  assert (Hlist : forall a, normalise (PaFixedSizeListArray a) = ok out ->
                            value_type out = float32).
  { intros a. rewrite KMeans._to_fixed_size_list_equation_1.
    destruct (DataType_eqb (value_type a) float32) eqn:E; simpl;
      [|discriminate].
    intros H. injection H as <-. now apply DataType_eqb_eq. }
  destruct data as [a | t | n | name]; intros H.
  - exact (Hlist a H).
  - rewrite KMeans._to_fixed_size_list_equation_2 in H.
    destruct (negb (length (tensor_shape t) =? 1)); [discriminate|].
    exact (Hlist _ H).
  - rewrite KMeans._to_fixed_size_list_equation_3 in H.
    destruct (_check_for_numpy (NpNdarray n)); [|discriminate].
    destruct (negb (length (shape n) =? 2)); [discriminate|].
    destruct (negb (DataType_eqb (dtype n) float32)); [discriminate|].
    unfold pa_array_reshaped in H.
    destruct (reshaped_ndim n =? 1); [|discriminate].
    unfold from_arrays in H. simpl in H.
    destruct (getitem (shape n) 1 <=? 0); [discriminate|].
    destruct (negb _); [discriminate|].
    injection H as <-. reflexivity.
  - rewrite KMeans._to_fixed_size_list_equation_4 in H. discriminate.
Qed.

(** X10. A model built with an accepted metric name calls the native
    constructor exactly once, with k, max_iters and the centroids as given
    and the metric name in its normal form; the object keeps that name and
    its repr shows it. *)
Theorem init_passes_normal_form (k max_iters : Z) (metric_type : string)
        (centroids_arr : option FixedSizeListArray) (normalized : string) :
  _normalize_metric_type metric_type = ok normalized ->
  fst (KMeans.__init__ _KMeans k metric_type max_iters centroids_arr)
  = [KMeans.Call_KMeans k normalized max_iters centroids_arr] /\
  In normalized metric_names /\
  (forall e : exn,
      _KMeans k normalized max_iters centroids_arr = raise e ->
      snd (KMeans.__init__ _KMeans k metric_type max_iters centroids_arr)
      = raise e) /\
  (forall model : native,
      _KMeans k normalized max_iters centroids_arr = ok model ->
      exists self : KMeans.t native,
        snd (KMeans.__init__ _KMeans k metric_type max_iters centroids_arr)
        = ok self /\
        KMeans._metric_type native self = normalized /\
        KMeans._kmeans native self = model /\
        KMeansMethods.__repr__ self
        = ("lance.KMeans(k=" ++ str_int k ++ ", metric_type="
           ++ normalized ++ ")")%string).
Proof.
  intros Hn. unfold KMeans.__init__. rewrite Hn. unfold ok.
  split; [reflexivity|]. split; [exact (normalized_in_names _ _ Hn)|].
  split.
  - intros e He. simpl. now rewrite He.
  - intros model Hmodel. simpl. rewrite Hmodel. eexists.
    split; [reflexivity|]. now split.
Qed.

(** X11. [fit] and [predict] hand the native model nothing but float32
    fixed-size-list arrays, the same array for the same data; when the data
    is refused, the native model is not called, the object is left as it
    was, and the caller gets the normaliser's exception. *)
Theorem native_sees_float32_only (self : KMeans.t native) (data : PyObject) :
  Forall (fun arr => value_type arr = float32)
         (arrays_of (fst (fst (fit self data)))) /\
  arrays_of (fst (fst (predict self data)))
  = arrays_of (fst (fst (fit self data))) /\
  (forall out : FixedSizeListArray,
      normalise data = ok out ->
      fst (fst (fit self data)) = [KMeansMethods.Call_fit out] /\
      fst (fst (predict self data)) = [KMeansMethods.Call_predict out]) /\
  (forall e : exn,
      normalise data = raise e ->
      fit self data = ([], raise e, self) /\
      predict self data = ([], raise e, self)).
Proof.
  unfold KMeansMethods.fit, KMeansMethods.predict.
  destruct (normalise data) as [e | out] eqn:Hn.
  - split; [constructor|]. split; [reflexivity|]. split; [discriminate|].
    intros e' He. injection He as <-. now split.
  - pose proof (normalised_is_float32 data out Hn) as Ht.
    destruct (native_fit (KMeans._kmeans native self) out) as [rf mf].
    destruct (native_predict (KMeans._kmeans native self) out) as [rp mp].
    simpl. split; [now repeat constructor|]. split; [reflexivity|].
    split; [|discriminate].
    intros out' Ho. injection Ho as <-. now split.
Qed.

(** X12. When the native model has centroids, the [centroids] property
    wraps them as a tensor array of shape (list_size,) over the very same
    storage, so the normaliser accepts its rank and, for float32 centroids,
    gives the native array back; an untrained model gives None. *)
Theorem centroids_round_trip (self : KMeans.t native) (model : native) :
  (forall ret : FixedSizeListArray,
      native_centroids (KMeans._kmeans native self) = (ok (Some ret), model) ->
      exists wrapped : FixedShapeTensorArray,
        centroids self
        = ([KMeansMethods.Call_centroids], ok (Some wrapped),
           KMeansMethods.with_model self model) /\
        tensor_shape wrapped = [list_size ret] /\
        storage wrapped = ret /\
        normalise (PaFixedShapeTensorArray wrapped)
        = normalise (PaFixedSizeListArray ret) /\
        (value_type ret = float32 ->
         normalise (PaFixedShapeTensorArray wrapped) = ok ret)) /\
  (native_centroids (KMeans._kmeans native self) = (ok None, model) ->
   centroids self
   = ([KMeansMethods.Call_centroids], ok None,
      KMeansMethods.with_model self model)).
Proof.
  unfold KMeansMethods.centroids. split.
  - intros ret H. rewrite H. unfold ok. cbv iota beta zeta.
    unfold from_storage, fixed_shape_tensor. simpl.
    rewrite DataType_eqb_refl, Nat.mul_1_r, Nat.eqb_refl. simpl.
    eexists. split; [reflexivity|]. simpl.
    split; [reflexivity|]. split; [reflexivity|].
    rewrite KMeans._to_fixed_size_list_equation_2. simpl.
    split; [reflexivity|].
    intros Ht. rewrite KMeans._to_fixed_size_list_equation_1, Ht. reflexivity.
  - intros H. rewrite H. reflexivity.
Qed.

(** X13. The normaliser never looks at an element: acting on every element
    of the input before normalising gives the same exception, or the same
    array with the elements acted on. *)
Theorem normaliser_ignores_elements (f : scalar -> scalar) (data : PyObject) :
  (forall n : ndarray, _check_for_numpy (NpNdarray n) = true) ->
  normalise (map_object f data) = map_normalised f (normalise data).
Proof.
  intros Hnp.
  assert (Hlist : forall a,
             normalise (PaFixedSizeListArray (map_list_array f a))
             = map_normalised f (normalise (PaFixedSizeListArray a))).
  { intros a. rewrite !KMeans._to_fixed_size_list_equation_1. simpl.
    now destruct (negb (DataType_eqb (value_type a) float32)). }
  destruct data as [a | t | n | name]; simpl map_object.
  - apply Hlist.
  - rewrite !KMeans._to_fixed_size_list_equation_2. simpl.
    destruct (negb (length (tensor_shape t) =? 1)); [reflexivity|].
    apply Hlist.
  - rewrite !KMeans._to_fixed_size_list_equation_3, !Hnp. simpl.
    destruct (negb (length (shape n) =? 2)); [reflexivity|].
    destruct (negb (DataType_eqb (dtype n) float32)); [reflexivity|].
    unfold pa_array_reshaped, reshaped_ndim. simpl.
    destruct (nd_class n); simpl; [|reflexivity].
    unfold from_arrays, reshape_flat. simpl.
    destruct (getitem (shape n) 1 <=? 0); [reflexivity|].
    assert (Hlen : length (map (fun idx => f (item n idx)) (c_order (shape n)))
                   = length (map (item n) (c_order (shape n))))
      by now rewrite !length_map.
    rewrite Hlen.
    destruct (negb _); [reflexivity|].
    unfold map_normalised, map_list_array. simpl.
    now rewrite map_map.
  - now rewrite !KMeans._to_fixed_size_list_equation_4.
Qed.

End KMeansFacts.

(** Beyond 2^53 microseconds the float cannot hold every count. *)
Example td_to_micros_inexact :
  td_to_micros {| days := 0; seconds := 0; microseconds := 2 ^ 53 + 1 |}
  = inr (2 ^ 53)%Z.
Proof. vm_compute. reflexivity. Qed.

(** ** sanitize_ts *)

Section SanitizeFacts.

Variable _check_for_pandas : TsObject -> bool.
Variable pd_to_datetime : string -> pyresult Timestamp.
Variable to_pydatetime : Timestamp -> pyresult datetime.
Variable strptime : string -> pyresult datetime.

Local Abbreviation sanitize :=
  (sanitize_ts _check_for_pandas pd_to_datetime to_pydatetime strptime).

(** X15. What [sanitize_ts] returns is a datetime (or the Timestamp it was
    given, when the pandas check does not claim it), never a string, and
    sanitising it again returns it unchanged. *)
Theorem sanitize_ts_idempotent (ts out : TsObject) :
  sanitize ts = inr out ->
  ((exists d : datetime, out = TsDatetime d) \/
   (exists stamp : Timestamp, out = TsTimestamp stamp /\ ts = out)) /\
  sanitize out = inr out.
Proof.
  destruct ts as [s | stamp | d | shown type_shown]; simpl.
  - destruct (_check_for_pandas (TsStr s)).
    + destruct (pd_to_datetime s) as [e | stamp]; [discriminate|].
      destruct (to_pydatetime stamp) as [e | d]; [discriminate|].
      intros H. injection H as <-. split; [left; now exists d | reflexivity].
    + destruct (strptime s) as [e | d].
      * destruct (is_ValueError e); discriminate.
      * intros H. injection H as <-.
        split; [left; now exists d | reflexivity].
  - destruct (_check_for_pandas (TsTimestamp stamp)) eqn:E.
    + destruct (to_pydatetime stamp) as [e | d]; [discriminate|].
      intros H. injection H as <-. split; [left; now exists d | reflexivity].
    + intros H. injection H as <-. split; [right; now exists stamp|].
      simpl. now rewrite E.
  - intros H. injection H as <-. split; [left; now exists d | reflexivity].
  - discriminate.
Qed.

(** X16. Where the pandas check does not claim the argument, [sanitize_ts]
    fails in three ways only: on a string that [strptime] refuses with a
    ValueError, with the ValueError that names the string and suggests
    pandas in place of strptime's; on a string for which [strptime] raises
    something else, with that exception; and on an object that is neither a
    string nor a datetime, with TypeError. *)
Theorem sanitize_ts_failures (ts : TsObject) (e : pyexn) :
  _check_for_pandas ts = false ->
  sanitize ts = inl e ->
  (exists (s : string) (e0 : pyexn),
      ts = TsStr s /\ strptime s = inl e0 /\
      ((is_ValueError e0 = true /\
        e = Exn (ValueError (msg_parse_head ++ s ++ msg_parse_tail))) \/
       (is_ValueError e0 = false /\ e = e0))) \/
  (exists shown type_shown : string,
      ts = TsOther shown type_shown /\
      e = TypeError (msg_unrecognized ++ shown ++ " of type " ++ type_shown)).
Proof.
  intros Hp. destruct ts as [s | stamp | d | shown type_shown]; simpl;
    rewrite ?Hp.
  - destruct (strptime s) as [e0 | d] eqn:Hs; [|discriminate].
    destruct (is_ValueError e0) eqn:Hv; intros H; injection H as <-;
      left; exists s, e0; (split; [reflexivity|]); (split; [exact Hs|]).
    + left. now split.
    + right. now split.
  - discriminate.
  - discriminate.
  - intros H. injection H as <-. right. now exists shown, type_shown.
Qed.

End SanitizeFacts.

(** ** Sample runs for the further properties *)

Lemma setup_failure_stops_early_witness :
  outcome (validate_vector_index broken_dataset "vector" 5 None float_one 0)
  = raise (Foreign "io error") /\
  outcome (validate_vector_index five_rows_dataset "embedding" 5 (Some 3%Z)
             float_one 0)
  = raise (KeyError "embedding").
Proof.
  split.
  - apply (setup_failure_stops_early nat broken_dataset "vector" 5 None
             float_one 0) with (s1 := 0) (before := [Ev_to_table]).
    reflexivity.
  - refine (proj1 (proj2 (setup_failure_stops_early nat five_rows_dataset
                            "embedding" 5 (Some 3%Z) float_one 0)
                     _ 0 [Ev_sample 3] eq_refl eq_refl)).
Defined.

Lemma failed_query_aborts_witness :
  outcome (validate_vector_index failing_dataset "vector" 5 None float_one 0)
  = raise (Foreign "io error") /\
  exists before : list Event,
    trace_of (validate_vector_index failing_dataset "vector" 5 None
                float_one 0)
    = before ++ [failed_query] /\
    forallb answered before = true.
Proof.
  apply (failed_query_aborts nat failing_dataset "vector" 5 None float_one 0
           failed_query).
  - vm_compute. right. right. left. reflexivity.
  - reflexivity.
Defined.

Lemma counters_bounded_witness :
  (0 <= 4 <= 5)%Z /\ (5 <= Z.of_nat (length five_rows))%Z /\
  5%Z = Z.of_nat
          (length (nearest_queries
                     (trace_of (loop five_rows_dataset "vector" 5 five_rows 0
                                     (Z.of_nat (length five_rows)) 0)))).
Proof.
  apply (counters_bounded nat five_rows_dataset "vector" 5 five_rows 0 5
           (4%Z, 5%Z)).
  vm_compute. reflexivity.
Defined.

Lemma every_row_passes_succeeds_witness :
  outcome (validate_vector_index all_found_dataset "vector" 5 None
             float_one 0) = ok tt.
Proof.
  apply (every_row_passes_succeeds nat all_found_dataset "vector" 5 None
           float_one 0 0 three_rows [Ev_to_table]).
  - eexists. split; reflexivity.
  - vm_compute. reflexivity.
  - reflexivity.
  - reflexivity.
Defined.

Lemma no_row_passes_fails_witness :
  outcome (validate_vector_index none_found_dataset "vector" 5 None
             float_one 0)
  = raise (ValueError (msg_sanity ++ "0/" ++ str_int (total_of three_rows)
                       ++ " passed")) /\
  fails_with (outcome (validate_vector_index none_found_dataset "vector" 5
                         None float_one 0)) AccuracyError.
Proof.
  apply (no_row_passes_fails nat none_found_dataset "vector" 5 None
           float_one 0 0 three_rows [Ev_to_table]).
  - eexists. split; reflexivity.
  - vm_compute. reflexivity.
  - vm_compute. reflexivity.
  - reflexivity.
  - reflexivity.
Defined.

Lemma nonpositive_threshold_never_fails_witness :
  outcome (validate_vector_index none_found_dataset "vector" 5 None
             float_zero 0) = ok tt.
Proof.
  apply (nonpositive_threshold_never_fails nat none_found_dataset "vector" 5
           None float_zero 0 0 three_rows [Ev_to_table]).
  - eexists. split; reflexivity.
  - vm_compute. reflexivity.
  - reflexivity.
  - reflexivity.
Defined.

Lemma nothing_to_check_divides_by_zero_witness :
  validate_vector_index empty_dataset "vector" 5 None float_one 0
  = (raise ZeroDivisionError, 0, [Ev_to_table]).
Proof.
  apply (nothing_to_check_divides_by_zero nat empty_dataset "vector" 5 None
           float_one 0 0 [] [Ev_to_table]).
  - eexists. split; reflexivity.
  - reflexivity.
Defined.

Lemma metric_normal_form_witness :
  In "l2"%string metric_names /\ _normalize_metric_type "l2" = ok "l2"%string.
Proof.
  apply (metric_normal_form "Euclidean" "l2"). reflexivity.
Defined.

Lemma init_passes_normal_form_witness :
  fst (KMeans.__init__ (fun _ _ _ _ => ok 0) 8 "COSINE" 50 None)
  = [KMeans.Call_KMeans 8 "cosine" 50 None] /\
  In "cosine"%string metric_names.
Proof.
  pose proof (init_passes_normal_form nat (fun _ _ _ _ => ok 0) 8 50 "COSINE"
                None "cosine" eq_refl) as H.
  exact (conj (proj1 H) (proj1 (proj2 H))).
Defined.

Lemma native_sees_float32_only_witness :
  fst (fst (KMeansMethods.fit numpy_check counting_fit sample_model
              (NpNdarray (as_ndarray batch_2x2))))
  = [KMeansMethods.Call_fit (as_list_array batch_2x2)] /\
  KMeansMethods.fit numpy_check counting_fit sample_model
    (NpNdarray ndarray_rank3_float64)
  = ([], raise (ValueError "Numpy array must be a 2-D array, got 3-D"),
     sample_model).
Proof.
  split.
  - refine (proj1 (proj1 (proj2 (proj2 (native_sees_float32_only numpy_check
              nat counting_fit counting_predict sample_model
              (NpNdarray (as_ndarray batch_2x2))))) _ _)).
    vm_compute. reflexivity.
  - refine (proj1 (proj2 (proj2 (proj2 (native_sees_float32_only numpy_check
              nat counting_fit counting_predict sample_model
              (NpNdarray ndarray_rank3_float64)))) _ _)).
    vm_compute. reflexivity.
Defined.

Lemma centroids_round_trip_witness :
  exists wrapped : FixedShapeTensorArray,
    KMeansMethods.centroids sample_centroids sample_model
    = ([KMeansMethods.Call_centroids], ok (Some wrapped),
       KMeansMethods.with_model sample_model 0) /\
    tensor_shape wrapped = [2] /\
    storage wrapped = as_list_array batch_2x2 /\
    KMeans._to_fixed_size_list numpy_check (PaFixedShapeTensorArray wrapped)
    = KMeans._to_fixed_size_list numpy_check
        (PaFixedSizeListArray (as_list_array batch_2x2)) /\
    (value_type (as_list_array batch_2x2) = float32 ->
     KMeans._to_fixed_size_list numpy_check (PaFixedShapeTensorArray wrapped)
     = ok (as_list_array batch_2x2)).
Proof.
  exact (proj1 (centroids_round_trip numpy_check nat sample_centroids
                  sample_model 0) (as_list_array batch_2x2) eq_refl).
Defined.

Lemma normaliser_ignores_elements_witness :
  KMeans._to_fixed_size_list numpy_check
    (map_object Z.succ (NpNdarray ndarray_2x3))
  = map_normalised Z.succ
      (KMeans._to_fixed_size_list numpy_check (NpNdarray ndarray_2x3)).
Proof.
  apply (normaliser_ignores_elements numpy_check Z.succ
           (NpNdarray ndarray_2x3)).
  reflexivity.
Defined.

Lemma td_to_micros_exact_witness :
  td_to_micros one_day_two_seconds = inr 86402000003%Z.
Proof.
  apply (td_to_micros_exact one_day_two_seconds). vm_compute. reflexivity.
Defined.

Lemma sanitize_ts_idempotent_witness :
  ((exists d : datetime, TsDatetime a_datetime = TsDatetime d) \/
   (exists stamp : Timestamp,
       TsDatetime a_datetime = TsTimestamp stamp /\
       TsStr "2024-01-02 03:04:05" = TsDatetime a_datetime)) /\
  sanitize_ts no_pandas pd_absent stamp_datetime strptime_sample
    (TsDatetime a_datetime)
  = inr (TsDatetime a_datetime).
Proof.
  apply (sanitize_ts_idempotent no_pandas pd_absent stamp_datetime
           strptime_sample (TsStr "2024-01-02 03:04:05")).
  reflexivity.
Defined.

Lemma sanitize_ts_failures_witness :
  (exists (s : string) (e0 : pyexn),
      TsStr "yesterday" = TsStr s /\ strptime_sample s = inl e0 /\
      ((is_ValueError e0 = true /\
        Exn (ValueError
               "Failed to parse timestamp string yesterday. Try installing Pandas.")
        = Exn (ValueError (msg_parse_head ++ s ++ msg_parse_tail))) \/
       (is_ValueError e0 = false /\
        Exn (ValueError
               "Failed to parse timestamp string yesterday. Try installing Pandas.")
        = e0))) \/
  (exists shown type_shown : string,
      TsStr "yesterday" = TsOther shown type_shown /\
      Exn (ValueError
             "Failed to parse timestamp string yesterday. Try installing Pandas.")
      = TypeError (msg_unrecognized ++ shown ++ " of type " ++ type_shown)).
Proof.
  apply (sanitize_ts_failures no_pandas pd_absent stamp_datetime
           strptime_sample (TsStr "yesterday")).
  - reflexivity.
  - reflexivity.
Defined.
